(** * Personal finance dashboard: analytics core

    A shallow embedding of the analytics layer of the dashboard
    (analytics.py, finance_dashboard.py, goals.py and the older monolithic
    lol.py) together with the properties its specification states.

    Modelling conventions.
    - A pandas [DataFrame] of transactions is a list of rows plus the
      optional derived column ['Month'] that some operations attach to it.
    - Python floats are idealised as real numbers ([R]); a [NaN] amount
      (what [pd.to_numeric(errors='coerce')] leaves for an unparsable cell)
      is [None], and pandas' [sum] skips it.
    - Timestamps are calendar dates with a second of the day; [Timedelta.days]
      is the floor of the elapsed time in days, as in pandas.
    - Strings are ASCII; [str.contains(pat, case=False)] on a pattern made of
      literal alternatives is a case-folded substring test. *)

From Stdlib Require Import Reals Lra Lia ZArith List String Ascii Bool.
From Stdlib Require Import Sorted Permutation.
Import ListNotations.

Set Implicit Arguments.

(* ================================================================= *)
(** ** Calendar: Timestamp, Timedelta.days, Period[M] *)

Module Calendar.
Local Open Scope Z_scope.

Record Timestamp := mkTimestamp {
  year : Z;
  month : Z;
  day : Z;
  second_of_day : Z
}.

Definition is_leap (y : Z) : bool :=
  (y mod 4 =? 0) && (negb (y mod 100 =? 0) || (y mod 400 =? 0)).

(** Days before January 1st of year [y] (proleptic Gregorian ordinal). *)
Definition days_before_year (y : Z) : Z :=
  let p := y - 1 in p * 365 + p / 4 - p / 100 + p / 400.

Definition days_before_month (y m : Z) : Z :=
  nth (Z.to_nat m) [0; 0; 31; 59; 90; 120; 151; 181; 212; 243; 273; 304; 334] 0
  + (if (2 <? m) && is_leap y then 1 else 0).

Definition toordinal (t : Timestamp) : Z :=
  days_before_year (year t) + days_before_month (year t) (month t) + day t.

(** Position of a timestamp on the time line, in seconds. *)
Definition total_seconds (t : Timestamp) : Z :=
  toordinal t * 86400 + second_of_day t.

(** [(a - b).days]: pandas normalises a Timedelta so that the day component
    is the floor of the difference; [Z.div] rounds towards minus infinity
    for a positive divisor. *)
Definition timedelta_days (a b : Timestamp) : Z :=
  (total_seconds a - total_seconds b) / 86400.

(** A monthly period, [Timestamp.to_period('M')]. *)
Definition Period : Type := (Z * Z)%type.

Definition to_period_M (t : Timestamp) : Period := (year t, month t).

Definition period_compare (p q : Period) : comparison :=
  match fst p ?= fst q with
  | Eq => snd p ?= snd q
  | c => c
  end.

Definition digit (n : Z) : ascii := ascii_of_nat (48 + Z.to_nat (n mod 10)).

(** [str(period)] for a monthly period: ["YYYY-MM"]. *)
Definition period_str (p : Period) : string :=
  let y := fst p in
  let m := snd p in
  String (digit (y / 1000)) (String (digit (y / 100)) (String (digit (y / 10))
    (String (digit y) (String "-" (String (digit (m / 10))
      (String (digit m) EmptyString)))))).

End Calendar.

(* ================================================================= *)
(** ** Text: case-insensitive [str.contains] *)

Module Text.

Definition lower_ascii (c : ascii) : ascii :=
  let n := nat_of_ascii c in
  if (65 <=? n)%nat && (n <=? 90)%nat then ascii_of_nat (n + 32) else c.

Fixpoint lower (s : string) : string :=
  match s with
  | EmptyString => EmptyString
  | String c tl => String (lower_ascii c) (lower tl)
  end.

(** [pat] occurs somewhere in [s]. *)
Fixpoint substring_of (pat s : string) : bool :=
  String.prefix pat s ||
  match s with
  | EmptyString => false
  | String _ tl => substring_of pat tl
  end.

(** [Series.str.contains(pat, case=False)] for a regular expression that is
    an alternation [a1|a2|...] of literal texts, given as the list of its
    alternatives. *)
Definition str_contains (alternatives : list string) (s : string) : bool :=
  existsb (fun pat => substring_of (lower pat) (lower s)) alternatives.

End Text.

(* ================================================================= *)
(** ** Numeric columns *)

Module Series.
Local Open Scope R_scope.

(** [Series.sum()], which skips missing values. *)
Fixpoint sum (l : list (option R)) : R :=
  match l with
  | [] => 0
  | Some x :: tl => x + sum tl
  | None :: tl => sum tl
  end.

(** Python's builtin [sum] over a list of floats. *)
Fixpoint py_sum (l : list R) : R :=
  match l with
  | [] => 0
  | x :: tl => x + py_sum tl
  end.

Fixpoint cumsum_from (acc : R) (l : list R) : list R :=
  match l with
  | [] => []
  | x :: tl => (acc + x) :: cumsum_from (acc + x) tl
  end.

(** [Series.cumsum()]: the running total. *)
Definition cumsum (l : list R) : list R := cumsum_from 0 l.

End Series.

(* ================================================================= *)
(** ** Grouping: [groupby(key)] with its default [sort=True] *)

Section GroupBy.
Context {K A : Type}.
Variable cmp : K -> K -> comparison.

Definition same_key (k k' : K) : bool :=
  match cmp k k' with Eq => true | _ => false end.

(** Insert a key in an ascending list without duplicates. *)
Fixpoint insert_key (k : K) (ks : list K) : list K :=
  match ks with
  | [] => [k]
  | k' :: tl =>
      match cmp k k' with
      | Lt => k :: ks
      | Eq => ks
      | Gt => k' :: insert_key k tl
      end
  end.

(** [sorted(col.unique())]: the distinct keys in ascending order. *)
Definition sorted_unique (ks : list K) : list K :=
  fold_right insert_key [] ks.

(** The rows of one group, in their original order. *)
Definition group (key : A -> K) (k : K) (l : list A) : list A :=
  filter (fun r => same_key (key r) k) l.

Definition groupby (key : A -> K) (l : list A) : list (K * list A) :=
  map (fun k => (k, group key k l)) (sorted_unique (map key l)).
End GroupBy.

(* ================================================================= *)
(** ** The transaction DataFrame *)

Import Calendar.

Record Row := mkRow {
  Date : Timestamp;
  Category : string;
  Type_ : string;
  Amount : option R
}.

(** The frame a caller holds: the ledger rows and, once some operation has
    attached it, the derived column ['Month'] (one period per row). *)
Record DataFrame := mkDataFrame {
  rows : list Row;
  Month : option (list Period)
}.

(** [df.empty] *)
Definition empty (df : DataFrame) : bool :=
  match rows df with [] => true | _ => false end.

(** [df[df['Type'] == kind]['Amount']] *)
Definition amounts_of_type (kind : string) (l : list Row) : list (option R) :=
  map Amount (filter (fun r => String.eqb (Type_ r) kind) l).

(** [df['Date'].dt.to_period('M')] *)
Definition months_of (l : list Row) : list Period :=
  map (fun r => to_period_M (Date r)) l.

(** [df['Month'] = df['Date'].dt.to_period('M')]: writes the column into the
    frame it is given. *)
Definition assign_Month (df : DataFrame) : DataFrame :=
  {| rows := rows df; Month := Some (months_of (rows df)) |}.

(** Rows paired with the value of their ['Month'] cell. *)
Definition with_Month (df : DataFrame) : list (Period * Row) :=
  match Month df with
  | Some col => combine col (rows df)
  | None => []
  end.

(* ================================================================= *)
(** ** The dictionaries the operations exchange *)

(** [financial_goals] *)
Record FinancialGoals := mkFinancialGoals {
  target_portfolio_value : R;
  monthly_savings_goal : R;
  annual_income_goal : R
}.

(** The result of [track_investment_portfolio]; [investment_breakdown] keeps
    the key order of the dictionary. *)
Record Portfolio := mkPortfolio {
  total_invested : R;
  current_value : R;
  returns : R;
  return_percentage : R;
  investment_breakdown : list (string * R)
}.

(** One month of [calculate_monthly_cashflow]. *)
Record Cashflow := mkCashflow {
  income : R;
  expenses : R;
  net_flow : R
}.

(** One goal of [track_financial_goals]. *)
Record Goal := mkGoal {
  target : R;
  current : R;
  progress_percentage : R
}.

(** Sum of the amounts of the rows of one type, [x[x['Type'] == kind]['Amount'].sum()]. *)
Definition type_total (kind : string) (l : list Row) : R :=
  Series.sum (amounts_of_type kind l).

(* ================================================================= *)
(** ** analytics.py *)

Module analytics.
Local Open Scope R_scope.

Record NetWorth := mkNetWorth {
  starting_capital : R;
  current_net_worth : R;
  current_cash : R;
  investment_value : R;
  monthly_cash_balance : list (Period * R)
}.

(** The lambda applied to each month group. *)
Definition month_net (x : list Row) : R :=
  type_total "Income" x - type_total "Expense" x.

(** [df.groupby('Month').apply(lambda ..., include_groups=False).cumsum()],
    as the ordered [(month, value)] items of the resulting series. *)
Definition monthly_cash_flow (df : DataFrame) : list (Period * R) :=
  let groups := groupby period_compare fst (with_Month df) in
  combine (map fst groups)
          (Series.cumsum (map (fun g => month_net (map snd (snd g))) groups)).

(** [calculate_net_worth(df, starting_capital, investment_value)]: the
    dictionary it returns, and the caller's frame as the call leaves it. *)
Definition calculate_net_worth (df : DataFrame) (starting_capital investment_value : R)
  : NetWorth * DataFrame :=
  if empty df then
    ({| starting_capital := starting_capital;
        current_net_worth := starting_capital;
        current_cash := starting_capital;
        investment_value := 0;
        monthly_cash_balance := [] |}, df)
  else
    let total_income := type_total "Income" (rows df) in
    let total_expenses := type_total "Expense" (rows df) in
    let current_cash := starting_capital + total_income - total_expenses in
    let current_net_worth := current_cash + investment_value in
    let df := assign_Month df in
    ({| starting_capital := starting_capital;
        current_cash := current_cash;
        investment_value := investment_value;
        current_net_worth := current_net_worth;
        monthly_cash_balance := monthly_cash_flow df |}, df).

End analytics.

(* ================================================================= *)
(** ** goals.py *)

Module goals.
Local Open Scope R_scope.

(** Python's [min(100, x)]: the second argument only when it is strictly
    smaller. *)
Definition min100 (x : R) : R := if Rlt_dec x 100 then x else 100.

(** [min(100, (current / target) * 100) if target > 0 else 0] *)
Definition progress (current target : R) : R :=
  if Rlt_dec 0 target then min100 (current / target * 100) else 0.

(** [track_financial_goals(portfolio_data, cashflow_data, df, financial_goals)];
    [now] is the clock read by [datetime.now()]. *)
Definition track_financial_goals (now : Timestamp) (portfolio_data : Portfolio)
    (cashflow_data : list (string * Cashflow)) (df : DataFrame)
    (financial_goals : FinancialGoals) : list (string * Goal) :=
  let current_year := year now in
  let year_income :=
    Series.sum (map Amount
      (filter (fun r => Z.eqb (year (Date r)) current_year && String.eqb (Type_ r) "Income")
              (rows df))) in
  let avg_monthly_savings :=
    match cashflow_data with
    | [] => 0
    | _ =>
        let all_net_flows := map (fun kv => net_flow (snd kv)) cashflow_data in
        match all_net_flows with
        | [] => 0
        | _ => Series.py_sum all_net_flows / INR (List.length all_net_flows)
        end
    end in
  [ ("portfolio_goal"%string,
      {| target := target_portfolio_value financial_goals;
         current := current_value portfolio_data;
         progress_percentage :=
           progress (current_value portfolio_data) (target_portfolio_value financial_goals) |});
    ("monthly_savings_goal"%string,
      {| target := monthly_savings_goal financial_goals;
         current := avg_monthly_savings;
         progress_percentage :=
           progress avg_monthly_savings (monthly_savings_goal financial_goals) |});
    ("annual_income_goal"%string,
      {| target := annual_income_goal financial_goals;
         current := year_income;
         progress_percentage :=
           progress year_income (annual_income_goal financial_goals) |}) ].

End goals.

(* ================================================================= *)
(** ** finance_dashboard.py *)

Module finance_dashboard.
Local Open Scope R_scope.

(** The dashboard object. [csv_file] stands for the parsed content of the
    ledger file, which every operation re-reads. *)
Record PersonalFinanceDashboard := mkDashboard {
  csv_file : list Row;
  starting_capital : R;
  currency : string;
  financial_goals : FinancialGoals
}.

(** [read_transactions]: a fresh frame on each call. *)
Definition read_transactions (self : PersonalFinanceDashboard) : DataFrame :=
  {| rows := csv_file self; Month := None |}.

Definition annual_return_rate : R := 0.12.

Definition daily_return_rate : R := Rpower (1 + annual_return_rate) (1 / 365) - 1.

(** [(datetime.now() - row['Date']).days] *)
Definition days_held (now : Timestamp) (r : Row) : Z :=
  timedelta_days now (Date r).

(** [row['Amount'] * ((1 + daily_return_rate) ** row['days_held'])]; a
    missing amount stays missing. *)
Definition row_current_value (now : Timestamp) (r : Row) : option R :=
  match Amount r with
  | Some a => Some (a * powerRZ (1 + daily_return_rate) (days_held now r))
  | None => None
  end.

(** The filter of [get_investment_value]. *)
Definition is_mutual_fund_expense (r : Row) : bool :=
  Text.str_contains ["Mutual Fund"%string] (Category r) && String.eqb (Type_ r) "Expense".

Definition get_investment_value (self : PersonalFinanceDashboard) (now : Timestamp) : R :=
  let df := read_transactions self in
  let df_investments := filter is_mutual_fund_expense (rows df) in
  match df_investments with
  | [] => 0
  | _ => Series.sum (map (row_current_value now) df_investments)
  end.

(** The filter of [track_investment_portfolio]. *)
Definition is_investment_category (r : Row) : bool :=
  Text.str_contains ["Investment"%string; "Mutual Fund"%string] (Category r).

Definition track_investment_portfolio (self : PersonalFinanceDashboard) (now : Timestamp)
  : Portfolio :=
  let df := read_transactions self in
  let investment_categories := filter is_investment_category (rows df) in
  let total_invested := type_total "Expense" investment_categories in
  let current_value := get_investment_value self now in
  let returns := current_value - total_invested in
  let return_percentage :=
    if Rlt_dec 0 total_invested then returns / total_invested * 100 else 0 in
  {| total_invested := total_invested;
     current_value := current_value;
     returns := returns;
     return_percentage := return_percentage;
     investment_breakdown :=
       map (fun g => (fst g, Series.sum (map Amount (snd g))))
           (groupby String.compare Category investment_categories) |}.

Definition calculate_monthly_cashflow (self : PersonalFinanceDashboard)
  : list (string * Cashflow) :=
  let df := read_transactions self in
  if empty df then []
  else
    let df := assign_Month df in
    map (fun month =>
           let month_data := map snd (group period_compare fst month (with_Month df)) in
           let income := type_total "Income" month_data in
           let expenses := type_total "Expense" month_data in
           (period_str month,
            {| income := income; expenses := expenses; net_flow := income - expenses |}))
        (sorted_unique period_compare (map fst (with_Month df))).

End finance_dashboard.

(* ================================================================= *)
(** ** lol.py: the older, monolithic dashboard *)

Module lol.
Import finance_dashboard.
Local Open Scope R_scope.

(** The dictionary of [calculate_net_worth]; the keys [starting_capital] and
    [monthly_cash_balance] are absent from the one returned for an empty
    ledger. *)
Record NetWorthData := mkNetWorthData {
  starting_capital : option R;
  current_cash : R;
  investment_value : R;
  current_net_worth : R;
  monthly_cash_balance : option (list (Period * R))
}.

(** The dictionary of [track_investment_portfolio]; the key
    [investment_breakdown] is absent from the one returned for an empty
    ledger. *)
Record PortfolioData := mkPortfolioData {
  total_invested : R;
  current_value : R;
  returns : R;
  return_percentage : R;
  investment_breakdown : option (list (string * R))
}.

Definition get_investment_value (self : PersonalFinanceDashboard) (now : Timestamp) : R :=
  let df := read_transactions self in
  if empty df then 0
  else
    let df_investments := filter is_mutual_fund_expense (rows df) in
    match df_investments with
    | [] => 0
    | _ => Series.sum (map (row_current_value now) df_investments)
    end.

Definition calculate_net_worth (self : PersonalFinanceDashboard) (now : Timestamp)
  : NetWorthData :=
  let df := read_transactions self in
  if empty df then
    {| starting_capital := None;
       current_net_worth := finance_dashboard.starting_capital self;
       current_cash := finance_dashboard.starting_capital self;
       investment_value := 0;
       monthly_cash_balance := None |}
  else
    let total_income := type_total "Income" (rows df) in
    let total_expenses := type_total "Expense" (rows df) in
    let current_cash := finance_dashboard.starting_capital self + total_income - total_expenses in
    let investment_value := get_investment_value self now in
    let current_net_worth := current_cash + investment_value in
    let df := assign_Month df in
    {| starting_capital := Some (finance_dashboard.starting_capital self);
       current_cash := current_cash;
       investment_value := investment_value;
       current_net_worth := current_net_worth;
       monthly_cash_balance := Some (analytics.monthly_cash_flow df) |}.

Definition track_investment_portfolio (self : PersonalFinanceDashboard) (now : Timestamp)
  : PortfolioData :=
  let df := read_transactions self in
  if empty df then
    {| total_invested := 0; current_value := 0; returns := 0; return_percentage := 0;
       investment_breakdown := None |}
  else
    let investment_categories := filter is_investment_category (rows df) in
    let total_invested := type_total "Expense" investment_categories in
    let current_value := get_investment_value self now in
    let returns := current_value - total_invested in
    let return_percentage :=
      if Rlt_dec 0 total_invested then returns / total_invested * 100 else 0 in
    {| total_invested := total_invested;
       current_value := current_value;
       returns := returns;
       return_percentage := return_percentage;
       investment_breakdown :=
         Some (map (fun g => (fst g, Series.sum (map Amount (snd g))))
                   (groupby String.compare Category investment_categories)) |}.

End lol.

(* ================================================================= *)
(** ** Sample ledgers *)

Module Samples.
Local Open Scope R_scope.

Definition on (y m d : Z) : Timestamp := mkTimestamp y m d 0.

(** The scenario of the specification. *)
Definition scenario : list Row :=
  [ mkRow (on 2024 1 5) "Salary" "Income" (Some 50000);
    mkRow (on 2024 1 10) "Groceries" "Expense" (Some 5000);
    mkRow (on 2024 2 1) "Mutual Fund - Index" "Expense" (Some 20000) ].

Definition scenario_dashboard : finance_dashboard.PersonalFinanceDashboard :=
  finance_dashboard.mkDashboard scenario 2000000 "INR"
    (mkFinancialGoals 500000 50000 1200000).

(** An afternoon after every entry of the scenario. *)
Definition mid_2024 : Timestamp := mkTimestamp 2024 6 30 57600.

(** A ledger with a single fund purchase dated 2024-01-10. *)
Definition one_fund : list Row :=
  [ mkRow (on 2024 1 10) "Mutual Fund - Index" "Expense" (Some 10000) ].

Definition one_fund_dashboard : finance_dashboard.PersonalFinanceDashboard :=
  finance_dashboard.mkDashboard one_fund 2000000 "INR"
    (mkFinancialGoals 500000 50000 1200000).

(** Five days before that purchase. *)
Definition early_2024 : Timestamp := mkTimestamp 2024 1 5 0.

(** A ledger whose only investment category says "Investment". *)
Definition stocks_only : list Row :=
  [ mkRow (on 2024 1 5) "Salary" "Income" (Some 50000);
    mkRow (on 2024 1 20) "Stock INVESTMENT" "Expense" (Some 7000);
    mkRow (on 2024 2 3) "Investment - Gold" "Expense" (Some 3000) ].

Definition stocks_dashboard : finance_dashboard.PersonalFinanceDashboard :=
  finance_dashboard.mkDashboard stocks_only 2000000 "INR"
    (mkFinancialGoals 500000 50000 1200000).

End Samples.

(* ================================================================= *)
(** ** The specification's formulas *)

Module Spec.
Local Open Scope R_scope.

(** A qualifying investment: an Expense whose category contains the
    indicator text, whatever the case of its letters. *)
Definition qualifies (t : Row) : bool :=
  Text.substring_of "mutual fund" (Text.lower (Category t)) && String.eqb (Type_ t) "Expense".

(** Effective daily rate of an annual rate [r]. *)
Definition daily_rate (r : R) : R := Rpower (1 + r) (1 / 365) - 1.

(** Whole days from the transaction date to the as-of date. *)
Definition whole_days (as_of : Timestamp) (t : Row) : nat :=
  Z.to_nat (timedelta_days as_of (Date t)).

(** Sum over the qualifying transactions of [amount * (1 + d) ^ days_held];
    a transaction without an amount adds nothing. *)
Fixpoint valuation (d : R) (as_of : Timestamp) (txs : list Row) : R :=
  match txs with
  | [] => 0
  | t :: rest =>
      if qualifies t then
        match Amount t with
        | Some amount => amount * (1 + d) ^ whole_days as_of t + valuation d as_of rest
        | None => valuation d as_of rest
        end
      else valuation d as_of rest
  end.

(** The transactions of one calendar month. *)
Definition in_month (p : Period) (t : Row) : bool :=
  (year (Date t) =? fst p)%Z && (month (Date t) =? snd p)%Z.

(** Net flow of one calendar month: its income minus its expenses. *)
Definition month_flow (p : Period) (txs : list Row) : R :=
  Series.sum (map Amount (filter (fun t => in_month p t && String.eqb (Type_ t) "Income") txs))
  - Series.sum (map Amount (filter (fun t => in_month p t && String.eqb (Type_ t) "Expense") txs)).

(** Chronological order of months. *)
Definition month_before (p q : Period) : Prop :=
  (fst p < fst q \/ (fst p = fst q /\ snd p < snd q))%Z.

(** Lookup in a dictionary kept as its list of items. *)
Fixpoint get {V : Type} (k : string) (d : list (string * V)) : option V :=
  match d with
  | [] => None
  | (k', v) :: tl => if String.eqb k k' then Some v else get k tl
  end.

End Spec.

(* ================================================================= *)
(** ** Equality of group keys *)

(** The amount of a transaction, when it has one, is not negative. *)
Definition non_negative_amount (r : Row) : Prop :=
  forall a, Amount r = Some a -> (0 <= a)%R.

(** [period == month] on monthly periods. *)
Definition period_eqb (a b : Period) : bool :=
  (fst a =? fst b)%Z && (snd a =? snd b)%Z.

(* ================================================================= *)
(** ** Text entered at the prompt: [strip], [title], [replace] *)

Module Str.

(** ASCII white space, as [str.strip()] sees it. *)
Definition is_space (c : ascii) : bool :=
  let n := nat_of_ascii c in
  ((9 <=? n)%nat && (n <=? 13)%nat) || ((28 <=? n)%nat && (n <=? 32)%nat).

Definition is_lower (c : ascii) : bool :=
  let n := nat_of_ascii c in (97 <=? n)%nat && (n <=? 122)%nat.

Definition is_upper (c : ascii) : bool :=
  let n := nat_of_ascii c in (65 <=? n)%nat && (n <=? 90)%nat.

Definition upper_ascii (c : ascii) : ascii :=
  if is_lower c then ascii_of_nat (nat_of_ascii c - 32) else c.

Fixpoint lstrip (s : string) : string :=
  match s with
  | EmptyString => EmptyString
  | String c tl => if is_space c then lstrip tl else s
  end.

Fixpoint rstrip (s : string) : string :=
  match s with
  | EmptyString => EmptyString
  | String c tl =>
      match rstrip tl with
      | EmptyString => if is_space c then EmptyString else String c EmptyString
      | tl' => String c tl'
      end
  end.

(** [s.strip()] *)
Definition strip (s : string) : string := rstrip (lstrip s).

(** [s.title()]: a letter that follows a letter is lowered, any other
    letter is raised. *)
Fixpoint title_from (prev_cased : bool) (s : string) : string :=
  match s with
  | EmptyString => EmptyString
  | String c tl =>
      if is_lower c then
        String (if prev_cased then c else upper_ascii c) (title_from true tl)
      else if is_upper c then
        String (if prev_cased then Text.lower_ascii c else c) (title_from true tl)
      else String c (title_from false tl)
  end.

Definition title (s : string) : string := title_from false s.

(** [s.replace(old, new)] for one-character [old] and [new]. *)
Fixpoint replace (old new : ascii) (s : string) : string :=
  match s with
  | EmptyString => EmptyString
  | String c tl => String (if Ascii.eqb c old then new else c) (replace old new tl)
  end.

End Str.

(* ================================================================= *)
(** ** transaction_manager.py *)

Module transaction_manager.
Local Open Scope R_scope.

(** A Python float as the prompt can produce it. *)
Inductive PyFloat :=
| Finite (x : R)
| Inf
| NegInf
| NaN.

(** [amount > 0] *)
Definition positive (amount : PyFloat) : bool :=
  match amount with
  | Finite x => if Rlt_dec 0 x then true else false
  | Inf => true
  | NegInf | NaN => false
  end.

(** A record of the ledger file, as [writer.writerow] receives it. *)
Record CsvRecord := mkCsvRecord {
  rec_date : string;
  rec_category : string;
  rec_type : string;
  rec_amount : PyFloat
}.

(** What the operation prints, prompts apart. *)
Inductive Printed :=
| adding_for (current_date : string)
| enter_income_or_expense
| amount_must_be_positive
| enter_a_valid_number
| added_successfully
| error_adding.

(** The outcome of reading from the terminal: the value read, what was
    printed meanwhile and the lines not yet consumed. [None] is the
    [EOFError] of [input()] when no line is left. *)
Definition Read (A : Type) : Type := option (A * list Printed * list string).

(** The loop asking for the type. *)
Fixpoint ask_type (inputs : list string) : Read string :=
  match inputs with
  | [] => None
  | line :: rest =>
      let transaction_type := Str.title (Str.strip line) in
      if String.eqb transaction_type "Income" || String.eqb transaction_type "Expense"
      then Some (transaction_type, [], rest)
      else
        match ask_type rest with
        | Some (t, printed, rest') => Some (t, enter_income_or_expense :: printed, rest')
        | None => None
        end
  end.

Section Amount.
(** Python's [float(text)]; [None] is its [ValueError]. *)
Variable float : string -> option PyFloat.

(** The loop asking for the amount. *)
Fixpoint ask_amount (inputs : list string) : Read PyFloat :=
  match inputs with
  | [] => None
  | line :: rest =>
      let again (message : Printed) :=
        match ask_amount rest with
        | Some (a, printed, rest') => Some (a, message :: printed, rest')
        | None => None
        end in
      match float (Str.strip line) with
      | Some amount =>
          if positive amount then Some (amount, [], rest)
          else again amount_must_be_positive
      | None => again enter_a_valid_number
      end
  end.

(** [add_new_transaction(csv_file, current_date)]. The file is the list of
    its records; [writable] tells whether opening it for appending
    succeeds; [inputs] are the lines typed at the terminal. The result is
    the file afterwards, what was printed and the lines left. *)
Definition add_new_transaction (csv_file : list CsvRecord) (writable : bool)
    (current_date : string) (inputs : list string)
  : option (list CsvRecord * list Printed * list string) :=
  match inputs with
  | [] => None
  | line :: inputs =>
      let category := Str.strip line in
      match ask_type inputs with
      | None => None
      | Some (transaction_type, printed_type, inputs) =>
          match ask_amount inputs with
          | None => None
          | Some (amount, printed_amount, inputs) =>
              let printed := adding_for current_date :: printed_type ++ printed_amount in
              if writable then
                (Some (csv_file ++ [mkCsvRecord current_date category transaction_type amount],
                       printed ++ [added_successfully], inputs))
              else
                (Some (csv_file, printed ++ [error_adding], inputs))
          end
      end
  end.
End Amount.

(** A line the type loop accepts. *)
Definition valid_type (line : string) : bool :=
  String.eqb (Str.title (Str.strip line)) "Income"
  || String.eqb (Str.title (Str.strip line)) "Expense".

(** A line the amount loop accepts, and its complaint about one it rejects. *)
Definition valid_amount (float : string -> option PyFloat) (line : string) : bool :=
  match float (Str.strip line) with
  | Some amount => positive amount
  | None => false
  end.

Definition amount_complaint (float : string -> option PyFloat) (line : string) : Printed :=
  match float (Str.strip line) with
  | Some _ => amount_must_be_positive
  | None => enter_a_valid_number
  end.

End transaction_manager.

(* ================================================================= *)
(** ** visual.py *)

Module visual.
Local Open Scope R_scope.

(** The data of the four panels handed to the plotting library. The
    formatted texts written next to the goal bars are left out. *)
Record CashFlowBars := mkCashFlowBars {
  bar_months : list string;
  bar_income : list R;
  bar_expenses : list R;
  income_x : list R;
  expenses_x : list R;
  xticks : list nat;
  bar_ylabel : string
}.

Record CashTrend := mkCashTrend {
  trend_months : list string;
  cash_values : list R;
  trend_ylabel : string
}.

Record GoalBars := mkGoalBars {
  goal_names : list string;
  goal_progress : list R;
  text_x : list R
}.

Inductive Allocation :=
| pie (labels : list string) (sizes : list R)
| no_investment_data.

Record Figure := mkFigure {
  ax1 : option CashFlowBars;
  ax2 : option CashTrend;
  ax3 : GoalBars;
  ax4 : Allocation
}.

Definition width : R := 0.35.

(** Panel 1: drawn when [cashflow_data] is not empty. *)
Definition cash_flow_bars (cashflow_data : list (string * Cashflow)) (currency : string)
  : option CashFlowBars :=
  match cashflow_data with
  | [] => None
  | _ =>
      let months := map fst cashflow_data in
      let x := seq 0 (List.length months) in
      Some {| bar_months := months;
              bar_income := map (fun kv => income (snd kv)) cashflow_data;
              bar_expenses := map (fun kv => expenses (snd kv)) cashflow_data;
              income_x := map (fun i => INR i - width / 2) x;
              expenses_x := map (fun i => INR i + width / 2) x;
              xticks := x;
              bar_ylabel := "Amount (" ++ currency ++ ")" |}
  end.

(** Panel 2, given the value of the key [monthly_cash_balance] when the
    dictionary has it. *)
Definition cash_trend (monthly_cash_balance : option (list (Period * R)))
    (currency : string) (starting_capital : R) : option CashTrend :=
  match monthly_cash_balance with
  | Some ((_ :: _) as balance) =>
      Some {| trend_months := map (fun kv => period_str (fst kv)) balance;
              cash_values := map (fun kv => starting_capital + snd kv) balance;
              trend_ylabel := "Cash Balance (" ++ currency ++ ")" |}
  | _ => None
  end.

(** Panel 3. *)
Definition goal_bars (goal_progress : list (string * Goal)) : GoalBars :=
  let progress := map (fun kv => progress_percentage (snd kv)) goal_progress in
  {| goal_names := map (fun kv => Str.title (Str.replace "_" " " (fst kv))) goal_progress;
     goal_progress := progress;
     text_x := map (fun w => w + 1) progress |}.

(** Panel 4, given the value of the key [investment_breakdown]. *)
Definition allocation (investment_breakdown : list (string * R)) : Allocation :=
  match investment_breakdown with
  | [] => no_investment_data
  | _ => pie (map fst investment_breakdown) (map snd investment_breakdown)
  end.

Definition create_visualizations (net_worth_data : analytics.NetWorth)
    (portfolio_data : Portfolio) (cashflow_data : list (string * Cashflow))
    (goal_progress : list (string * Goal)) (currency : string) (starting_capital : R)
  : Figure :=
  {| ax1 := cash_flow_bars cashflow_data currency;
     ax2 := cash_trend (Some (analytics.monthly_cash_balance net_worth_data))
              currency starting_capital;
     ax3 := goal_bars goal_progress;
     ax4 := allocation (investment_breakdown portfolio_data) |}.

End visual.

(* ================================================================= *)
(** ** finance_dashboard.py: the dashboard view *)

Module dashboard_view.
Import finance_dashboard.

(** [display_dashboard]: the figure it draws. One reading [now] of the
    clock serves the whole call. *)
Definition display_dashboard (self : PersonalFinanceDashboard) (now : Timestamp)
  : visual.Figure :=
  let df := read_transactions self in
  let portfolio_data := track_investment_portfolio self now in
  let cashflow_data := calculate_monthly_cashflow self in
  let investment_value := get_investment_value self now in
  let (net_worth_data, df) :=
    analytics.calculate_net_worth df (starting_capital self) investment_value in
  let goal_progress :=
    goals.track_financial_goals now portfolio_data cashflow_data df (financial_goals self) in
  visual.create_visualizations net_worth_data portfolio_data cashflow_data goal_progress
    (currency self) (starting_capital self).

(** Menu entry 3, "View Net Worth Details": the snapshot it prints. *)
Definition view_net_worth (self : PersonalFinanceDashboard) (now : Timestamp)
  : analytics.NetWorth :=
  let df := read_transactions self in
  let investment_value := get_investment_value self now in
  fst (analytics.calculate_net_worth df (starting_capital self) investment_value).

End dashboard_view.

(* ================================================================= *)
(** ** lol.py: cash flow, goals and the dashboard view *)

Module lol_view.
Import finance_dashboard.
Local Open Scope R_scope.

Definition calculate_monthly_cashflow (self : PersonalFinanceDashboard)
  : list (string * Cashflow) :=
  let df := read_transactions self in
  if empty df then []
  else
    let df := assign_Month df in
    map (fun month =>
           let month_data := map snd (group period_compare fst month (with_Month df)) in
           let income := type_total "Income" month_data in
           let expenses := type_total "Expense" month_data in
           let net_flow := income - expenses in
           (period_str month,
            {| income := income; expenses := expenses; net_flow := net_flow |}))
        (sorted_unique period_compare (map fst (with_Month df))).

Definition track_financial_goals (self : PersonalFinanceDashboard) (now : Timestamp)
  : list (string * Goal) :=
  let portfolio_data := lol.track_investment_portfolio self now in
  let cashflow_data := calculate_monthly_cashflow self in
  let df := read_transactions self in
  let current_year := year now in
  let year_income :=
    Series.sum (map Amount
      (filter (fun r => Z.eqb (year (Date r)) current_year && String.eqb (Type_ r) "Income")
              (rows df))) in
  let avg_monthly_savings :=
    match cashflow_data with
    | [] => 0
    | _ =>
        let all_net_flows := map (fun kv => net_flow (snd kv)) cashflow_data in
        match all_net_flows with
        | [] => 0
        | _ => Series.py_sum all_net_flows / INR (List.length all_net_flows)
        end
    end in
  let goal (target current : R) :=
    {| target := target; current := current;
       progress_percentage :=
         if Rlt_dec 0 target then goals.min100 (current / target * 100) else 0 |} in
  [ ("portfolio_goal"%string,
      goal (target_portfolio_value (financial_goals self)) (lol.current_value portfolio_data));
    ("monthly_savings_goal"%string,
      goal (monthly_savings_goal (financial_goals self)) avg_monthly_savings);
    ("annual_income_goal"%string,
      goal (annual_income_goal (financial_goals self)) year_income) ].

(** [create_visualizations]; [None] is the [KeyError] raised when
    [portfolio_data] has no key [investment_breakdown]. *)
Definition create_visualizations (self : PersonalFinanceDashboard)
    (net_worth_data : lol.NetWorthData) (portfolio_data : lol.PortfolioData)
    (cashflow_data : list (string * Cashflow)) (goal_progress : list (string * Goal))
  : option visual.Figure :=
  let ax1 := visual.cash_flow_bars cashflow_data (currency self) in
  let ax2 := visual.cash_trend (lol.monthly_cash_balance net_worth_data)
               (currency self) (starting_capital self) in
  let ax3 := visual.goal_bars goal_progress in
  match lol.investment_breakdown portfolio_data with
  | None => None
  | Some breakdown =>
      Some {| visual.ax1 := ax1; visual.ax2 := ax2; visual.ax3 := ax3;
              visual.ax4 := visual.allocation breakdown |}
  end.

(** [display_dashboard]: the figure it draws, or [None] when drawing it
    raises. The summary it prints first reads keys that are always there. *)
Definition display_dashboard (self : PersonalFinanceDashboard) (now : Timestamp)
  : option visual.Figure :=
  let net_worth_data := lol.calculate_net_worth self now in
  let portfolio_data := lol.track_investment_portfolio self now in
  let cashflow_data := calculate_monthly_cashflow self in
  let goal_progress := track_financial_goals self now in
  create_visualizations self net_worth_data portfolio_data cashflow_data goal_progress.

End lol_view.

(* ================================================================= *)
(** ** A sample session at the terminal *)

Module Session.
Import transaction_manager.
Local Open Scope R_scope.

(** The few texts of the session as [float] reads them. *)
Definition float (text : string) : option PyFloat :=
  if String.eqb text "2500" then Some (Finite 2500)
  else if String.eqb text "0" then Some (Finite 0)
  else if String.eqb text "nan" then Some NaN
  else None.

(** A fund purchase typed with two slips on the way. *)
Definition typed : list string :=
  [ " Mutual Fund - Index "; "spent"; " expense"; "lots"; "nan"; "2500 "; "8" ]%string.

Definition ledger : list CsvRecord :=
  [ mkCsvRecord "2024-01-05" "Salary" "Income" (Finite 50000) ].

End Session.

(* ================================================================= *)
(** * Properties *)

(** ** The growth factor *)

Section Growth.
Import finance_dashboard.
Local Open Scope R_scope.

Lemma daily_factor_gt_1 : 1 < 1 + daily_return_rate.
Proof.
  unfold daily_return_rate, annual_return_rate.
  replace (1 + (Rpower (1 + 0.12) (1 / 365) - 1)) with (Rpower (1 + 0.12) (1 / 365)) by ring.
  pose proof (Rpower_lt (1 + 0.12) 0 (1 / 365)) as H.
  rewrite Rpower_O in H by lra.
  apply H; lra.
Qed.

Lemma daily_factor_pos : 0 < 1 + daily_return_rate.
Proof. pose proof daily_factor_gt_1; lra. Qed.

(** Nothing has grown on the day of the purchase. *)
Lemma growth_day_0 : powerRZ (1 + daily_return_rate) 0 = 1.
Proof. reflexivity. Qed.

(** Daily compounding meets the annual rate after 365 days. *)
Lemma growth_day_365 : powerRZ (1 + daily_return_rate) 365 = 1 + annual_return_rate.
Proof.
  rewrite powerRZ_Rpower by apply daily_factor_pos.
  unfold daily_return_rate.
  replace (1 + (Rpower (1 + annual_return_rate) (1 / 365) - 1))
    with (Rpower (1 + annual_return_rate) (1 / 365)) by ring.
  rewrite Rpower_mult.
  replace (1 / 365 * 365) with 1 by field.
  apply Rpower_1. unfold annual_return_rate; lra.
Qed.

(** A negative number of days shrinks the amount. *)
Lemma growth_negative_days (z : Z) :
  (z < 0)%Z -> powerRZ (1 + daily_return_rate) z < 1.
Proof.
  intros Hz.
  rewrite powerRZ_Rpower by apply daily_factor_pos.
  pose proof (Rpower_lt (1 + daily_return_rate) (IZR z) 0 daily_factor_gt_1) as H.
  rewrite Rpower_O in H by apply daily_factor_pos.
  apply H. now apply IZR_lt.
Qed.

Lemma growth_whole_days (z : Z) :
  (0 <= z)%Z ->
  powerRZ (1 + daily_return_rate) z = (1 + daily_return_rate) ^ Z.to_nat z.
Proof.
  intros Hz. rewrite <- (Z2Nat.id z) at 1 by assumption.
  symmetry; apply pow_powerRZ.
Qed.

End Growth.

(** ** Dates *)

Lemma timedelta_days_future (now d : Timestamp) :
  (total_seconds now < total_seconds d)%Z -> (timedelta_days now d < 0)%Z.
Proof.
  intros H. unfold timedelta_days.
  apply Z.div_lt_upper_bound; lia.
Qed.

Lemma timedelta_days_past (now d : Timestamp) :
  (total_seconds d <= total_seconds now)%Z -> (0 <= timedelta_days now d)%Z.
Proof.
  intros H. unfold timedelta_days.
  apply Z.div_pos; lia.
Qed.

(** ** Sums *)

Lemma sum_app (l1 l2 : list (option R)) :
  Series.sum (l1 ++ l2) = (Series.sum l1 + Series.sum l2)%R.
Proof.
  induction l1 as [|[x|] l1 IH]; simpl; rewrite ?IH; lra.
Qed.

Lemma filter_filter {A : Type} (f g : A -> bool) (l : list A) :
  filter f (filter g l) = filter (fun x => g x && f x) l.
Proof.
  induction l as [|a l IH]; simpl; [reflexivity|].
  destruct (g a); simpl; [destruct (f a)|]; now rewrite IH.
Qed.

(** ** The valuation as a sum *)

Section Valuation.
Import finance_dashboard.
Local Open Scope R_scope.

Lemma get_investment_value_sum (self : PersonalFinanceDashboard) (now : Timestamp) :
  get_investment_value self now =
  Series.sum (map (row_current_value now) (filter is_mutual_fund_expense (csv_file self))).
Proof.
  unfold get_investment_value, read_transactions; simpl.
  now destruct (filter is_mutual_fund_expense (csv_file self)).
Qed.

Lemma lol_get_investment_value_eq (self : PersonalFinanceDashboard) (now : Timestamp) :
  lol.get_investment_value self now = get_investment_value self now.
Proof.
  unfold lol.get_investment_value, get_investment_value, read_transactions, empty; simpl.
  now destruct (csv_file self).
Qed.

Lemma qualifies_is_mutual_fund_expense (r : Row) :
  Spec.qualifies r = is_mutual_fund_expense r.
Proof.
  unfold Spec.qualifies, is_mutual_fund_expense, Text.str_contains; simpl.
  now rewrite orb_false_r.
Qed.

End Valuation.

(* ================================================================= *)
(** ** Net worth *)

Section NetWorth.
Local Open Scope R_scope.

(** C1. The snapshot returned by the net-worth computation satisfies
    [current_net_worth = current_cash + investment_value] over its own
    fields, with [current_cash] the starting capital plus the Income total
    minus the Expense total of the whole ledger; in analytics.py and in the
    older lol.py alike. *)
Theorem net_worth_is_cash_plus_investments :
  (forall (df : DataFrame) (starting_capital investment_value : R),
     let nw := fst (analytics.calculate_net_worth df starting_capital investment_value) in
     analytics.current_net_worth nw
       = analytics.current_cash nw + analytics.investment_value nw
     /\ analytics.current_cash nw
       = starting_capital
         + Series.sum (map Amount (filter (fun r => String.eqb (Type_ r) "Income") (rows df)))
         - Series.sum (map Amount (filter (fun r => String.eqb (Type_ r) "Expense") (rows df))))
  /\
  (forall (self : finance_dashboard.PersonalFinanceDashboard) (now : Timestamp),
     let nw := lol.calculate_net_worth self now in
     lol.current_net_worth nw = lol.current_cash nw + lol.investment_value nw
     /\ lol.current_cash nw
       = finance_dashboard.starting_capital self
         + Series.sum (map Amount
             (filter (fun r => String.eqb (Type_ r) "Income") (finance_dashboard.csv_file self)))
         - Series.sum (map Amount
             (filter (fun r => String.eqb (Type_ r) "Expense") (finance_dashboard.csv_file self)))).
Proof.
  split.
  - intros df sc iv nw; subst nw.
    unfold analytics.calculate_net_worth, empty.
    destruct (rows df) as [|r l] eqn:E; simpl.
    + split; lra.
    + split; reflexivity.
  - intros self now nw; subst nw.
    unfold lol.calculate_net_worth, finance_dashboard.read_transactions, empty; simpl.
    destruct (finance_dashboard.csv_file self) as [|r l] eqn:E; simpl.
    + split; lra.
    + split; reflexivity.
Qed.

(** C7. On the empty ledger every core operation returns its baseline:
    the net worth is the starting capital, as cash and as net worth, with
    investment value 0 and no monthly balance; the monthly cash flow is the
    empty mapping; the valuation is 0. *)
Theorem empty_ledger_baselines :
  (forall (month_col : option (list Period)) (starting_capital investment_value : R),
     let df := mkDataFrame [] month_col in
     analytics.calculate_net_worth df starting_capital investment_value
     = (analytics.mkNetWorth starting_capital starting_capital starting_capital 0 [], df))
  /\
  (forall (starting_capital : R) (currency : string) (goals : FinancialGoals) (now : Timestamp),
     let self := finance_dashboard.mkDashboard [] starting_capital currency goals in
     finance_dashboard.calculate_monthly_cashflow self = []
     /\ finance_dashboard.get_investment_value self now = 0).
Proof.
  split.
  - intros; reflexivity.
  - intros; split; reflexivity.
Qed.

End NetWorth.

(* ================================================================= *)
(** ** Valuation engine *)

Section ValuationClaims.
Import finance_dashboard.
Local Open Scope R_scope.

(** C2, as stated, fails: a fund purchase dated five days after the as-of
    date qualifies, is held for -5 days, and is valued at its amount times
    the factor to the power -5, which is not its amount. *)
Lemma future_purchase_is_discounted :
  let r := mkRow (Samples.on 2024 1 10) "Mutual Fund - Index" "Expense" (Some 10000) in
  is_mutual_fund_expense r = true
  /\ (total_seconds Samples.early_2024 < total_seconds (Date r))%Z
  /\ days_held Samples.early_2024 r = (-5)%Z
  /\ get_investment_value Samples.one_fund_dashboard Samples.early_2024
     = 10000 * powerRZ (1 + daily_return_rate) (-5)
  /\ get_investment_value Samples.one_fund_dashboard Samples.early_2024 <> 10000.
Proof.
  assert (V : get_investment_value Samples.one_fund_dashboard Samples.early_2024
              = 10000 * powerRZ (1 + daily_return_rate) (-5)).
  { rewrite get_investment_value_sum.
    change (Series.sum [Some (10000 * powerRZ (1 + daily_return_rate) (-5))]
            = 10000 * powerRZ (1 + daily_return_rate) (-5)).
    simpl; lra. }
  repeat split; try reflexivity; [exact V|].
  rewrite V.
  pose proof (growth_negative_days (z := -5) eq_refl) as H.
  lra.
Qed.

(** C2, amended. The valuation never fails: it is the sum of the values of
    the qualifying rows, in lol.py as in finance_dashboard.py. A qualifying
    transaction of the ledger dated strictly after the as-of date is held
    for a negative number of days and adds to that sum its amount times the
    daily factor to that negative power, which is strictly less than a
    positive amount. *)
Theorem future_purchase_value (self : PersonalFinanceDashboard) (now : Timestamp)
    (before after : list Row) (r : Row) (a : R) :
  csv_file self = before ++ r :: after ->
  is_mutual_fund_expense r = true ->
  Amount r = Some a ->
  (total_seconds now < total_seconds (Date r))%Z ->
  let value_of l :=
    Series.sum (map (row_current_value now) (filter is_mutual_fund_expense l)) in
  let discounted := a * / (1 + daily_return_rate) ^ Z.to_nat (- days_held now r) in
  (days_held now r < 0)%Z
  /\ get_investment_value self now = value_of before + discounted + value_of after
  /\ lol.get_investment_value self now = get_investment_value self now
  /\ (0 < a -> discounted < a).
Proof.
  intros Hledger Hq Ha Hlt value_of discounted.
  pose proof (timedelta_days_future now (Date r) Hlt) as Hd.
  fold (days_held now r) in Hd.
  assert (P : powerRZ (1 + daily_return_rate) (days_held now r)
              = / (1 + daily_return_rate) ^ Z.to_nat (- days_held now r)).
  { destruct (days_held now r) as [|p|p]; try lia. reflexivity. }
  split; [exact Hd|]. split; [|split].
  - rewrite get_investment_value_sum, Hledger, filter_app.
    cbn [filter]. rewrite Hq, map_app, sum_app.
    cbn [map Series.sum]. unfold row_current_value at 2. rewrite Ha, P.
    subst value_of discounted. cbv beta. lra.
  - apply lol_get_investment_value_eq.
  - intros Hpos. subst discounted. rewrite <- P.
    pose proof (growth_negative_days Hd).
    pose proof (powerRZ_lt (1 + daily_return_rate) (days_held now r) daily_factor_pos).
    nra.
Qed.

Lemma future_purchase_value_witness :
  let r := mkRow (Samples.on 2024 1 10) "Mutual Fund - Index" "Expense" (Some 10000) in
  (total_seconds Samples.early_2024 < total_seconds (Date r))%Z
  /\ (days_held Samples.early_2024 r < 0)%Z
  /\ get_investment_value Samples.one_fund_dashboard Samples.early_2024
     = 0 + 10000 * / (1 + daily_return_rate) ^ Z.to_nat (- days_held Samples.early_2024 r) + 0.
Proof.
  intro r.
  assert (Hlt : (total_seconds Samples.early_2024 < total_seconds (Date r))%Z) by reflexivity.
  pose proof (@future_purchase_value Samples.one_fund_dashboard Samples.early_2024
                [] [] r 10000 eq_refl eq_refl eq_refl Hlt) as (Hd & Hv & _).
  split; [exact Hlt|]. split; [exact Hd | exact Hv].
Defined.

End ValuationClaims.

Section ValuationFormula.
Import finance_dashboard.
Local Open Scope R_scope.

Lemma daily_rate_is_spec : daily_return_rate = Spec.daily_rate 0.12.
Proof. reflexivity. Qed.

Lemma valuation_sum (now : Timestamp) (l : list Row) :
  Forall (fun r => (total_seconds (Date r) <= total_seconds now)%Z) l ->
  Series.sum (map (row_current_value now) (filter is_mutual_fund_expense l))
  = Spec.valuation daily_return_rate now l.
Proof.
  induction 1 as [|r l Hr _ IH]; [reflexivity|].
  cbn [filter Spec.valuation].
  rewrite qualifies_is_mutual_fund_expense.
  destruct (is_mutual_fund_expense r); [|exact IH].
  cbn [map Series.sum]. unfold row_current_value at 1.
  destruct (Amount r) as [a|]; [|exact IH].
  rewrite IH. unfold Spec.whole_days, days_held.
  now rewrite growth_whole_days by now apply timedelta_days_past.
Qed.

(** C3. When no transaction is dated after the as-of date, the valuation is
    the sum, over the Expense transactions whose category contains
    "Mutual Fund" in any letter case, of [amount * (1 + d) ^ days_held] with
    [d = (1 + 0.12) ^ (1/365) - 1] and [days_held] the whole days from the
    transaction date to the as-of date; it is 0 when no transaction
    qualifies, as on the empty ledger. *)
Theorem valuation_is_compound_growth (self : PersonalFinanceDashboard) (now : Timestamp) :
  Forall (fun r => (total_seconds (Date r) <= total_seconds now)%Z) (csv_file self) ->
  get_investment_value self now
    = Spec.valuation (Spec.daily_rate 0.12) now (csv_file self)
  /\ (filter Spec.qualifies (csv_file self) = [] -> get_investment_value self now = 0)
  /\ (csv_file self = [] -> get_investment_value self now = 0).
Proof.
  intros Hpast.
  assert (Z : filter Spec.qualifies (csv_file self) = [] -> get_investment_value self now = 0).
  { intros Hnone. rewrite get_investment_value_sum.
    rewrite (filter_ext _ _ qualifies_is_mutual_fund_expense) in Hnone.
    now rewrite Hnone. }
  split; [|split].
  - rewrite get_investment_value_sum, <- daily_rate_is_spec. now apply valuation_sum.
  - exact Z.
  - intros Hnil. apply Z. now rewrite Hnil.
Qed.

Lemma valuation_is_compound_growth_witness :
  Forall (fun r => (total_seconds (Date r) <= total_seconds Samples.mid_2024)%Z) Samples.scenario
  /\ get_investment_value Samples.scenario_dashboard Samples.mid_2024
     = Spec.valuation (Spec.daily_rate 0.12) Samples.mid_2024 Samples.scenario.
Proof.
  assert (H : Forall (fun r => (total_seconds (Date r) <= total_seconds Samples.mid_2024)%Z)
                     Samples.scenario).
  { repeat constructor; discriminate. }
  split; [exact H|].
  apply (valuation_is_compound_growth Samples.scenario_dashboard Samples.mid_2024 H).
Defined.

End ValuationFormula.

(* ================================================================= *)
(** ** Portfolio summary *)

Section PortfolioClaims.
Import finance_dashboard.
Local Open Scope R_scope.

(** C6. The portfolio summary reports
    [return_percentage = (current_value - total_invested) / total_invested * 100]
    when [total_invested] is positive, and 0 when [total_invested] is 0,
    whatever the current value; in finance_dashboard.py and in lol.py. *)
Theorem return_percentage_policy (self : PersonalFinanceDashboard) (now : Timestamp) :
  (let p := track_investment_portfolio self now in
   (0 < total_invested p ->
    return_percentage p = (current_value p - total_invested p) / total_invested p * 100)
   /\ (total_invested p = 0 -> return_percentage p = 0))
  /\
  (let p := lol.track_investment_portfolio self now in
   (0 < lol.total_invested p ->
    lol.return_percentage p
    = (lol.current_value p - lol.total_invested p) / lol.total_invested p * 100)
   /\ (lol.total_invested p = 0 -> lol.return_percentage p = 0)).
Proof.
  split.
  - cbv zeta. unfold track_investment_portfolio; cbn [total_invested return_percentage current_value].
    destruct (Rlt_dec 0 _) as [Hpos|Hneg]; split; intros H; try reflexivity; lra.
  - cbv zeta. unfold lol.track_investment_portfolio.
    destruct (empty (read_transactions self));
      cbn [lol.total_invested lol.return_percentage lol.current_value].
    + split; intros H; [lra | reflexivity].
    + destruct (Rlt_dec 0 _) as [Hpos|Hneg]; split; intros H; try reflexivity; lra.
Qed.

Lemma scenario_total_invested :
  total_invested (track_investment_portfolio Samples.scenario_dashboard Samples.mid_2024) = 20000.
Proof.
  unfold track_investment_portfolio; cbn [total_invested].
  change (Series.sum [Some 20000] = 20000). simpl; lra.
Qed.

Lemma return_percentage_policy_witness :
  let p := track_investment_portfolio Samples.scenario_dashboard Samples.mid_2024 in
  let q := track_investment_portfolio
             (mkDashboard [] 2000000 "INR" (mkFinancialGoals 500000 50000 1200000))
             Samples.mid_2024 in
  return_percentage p = (current_value p - total_invested p) / total_invested p * 100
  /\ return_percentage q = 0.
Proof.
  assert (H : 0 < total_invested
                 (track_investment_portfolio Samples.scenario_dashboard Samples.mid_2024)).
  { rewrite scenario_total_invested; lra. }
  split.
  - exact (proj1 (proj1 (return_percentage_policy Samples.scenario_dashboard
                           Samples.mid_2024)) H).
  - exact (proj2 (proj1 (return_percentage_policy
                           (mkDashboard [] 2000000 "INR" (mkFinancialGoals 500000 50000 1200000))
                           Samples.mid_2024)) eq_refl).
Defined.

End PortfolioClaims.

Section InvestmentOnly.
Import finance_dashboard.
Local Open Scope R_scope.

Lemma str_contains_app (a b : list string) (s : string) :
  Text.str_contains (a ++ b) s = Text.str_contains a s || Text.str_contains b s.
Proof. unfold Text.str_contains. apply existsb_app. Qed.

(** C10. When some Expense transaction's category contains "Investment" in
    any letter case and no category contains "Mutual Fund", the portfolio
    summary reports as [total_invested] the total of the Expense amounts of
    the "Investment" categories, a [current_value] of 0, and so [returns]
    equal to minus [total_invested]. *)
Theorem investment_without_fund (self : PersonalFinanceDashboard) (now : Timestamp) :
  Exists (fun r => Text.str_contains ["Investment"%string] (Category r) = true
                   /\ Type_ r = "Expense"%string) (csv_file self) ->
  Forall (fun r => Text.str_contains ["Mutual Fund"%string] (Category r) = false)
         (csv_file self) ->
  let p := track_investment_portfolio self now in
  total_invested p
    = Series.sum (map Amount
        (filter (fun r => Text.str_contains ["Investment"%string] (Category r)
                          && String.eqb (Type_ r) "Expense") (csv_file self)))
  /\ current_value p = 0
  /\ returns p = - total_invested p.
Proof.
  intros _ Hnone p; subst p.
  unfold track_investment_portfolio; cbn [total_invested current_value returns].
  assert (V : get_investment_value self now = 0).
  { rewrite get_investment_value_sum.
    replace (filter is_mutual_fund_expense (csv_file self)) with (@nil Row); [reflexivity|].
    symmetry. induction Hnone as [|r l Hr _ IH]; [reflexivity|].
    cbn [filter]. unfold is_mutual_fund_expense at 1. now rewrite Hr. }
  rewrite V. split; [|split; [reflexivity | lra]].
  unfold type_total, amounts_of_type, read_transactions; cbn [rows].
  rewrite filter_filter. do 2 f_equal.
  induction Hnone as [|r l Hr _ IH]; [reflexivity|].
  cbn [filter]. rewrite IH.
  unfold is_investment_category at 1.
  change ["Investment"%string; "Mutual Fund"%string]
    with (["Investment"%string] ++ ["Mutual Fund"%string]).
  now rewrite str_contains_app, Hr, orb_false_r.
Qed.

Lemma investment_without_fund_witness :
  let p := track_investment_portfolio Samples.stocks_dashboard Samples.mid_2024 in
  current_value p = 0 /\ returns p = - total_invested p.
Proof.
  apply (investment_without_fund Samples.stocks_dashboard Samples.mid_2024).
  - apply Exists_cons_tl, Exists_cons_hd. split; reflexivity.
  - repeat constructor.
Defined.

End InvestmentOnly.

(* ================================================================= *)
(** ** Goal tracker *)

Section GoalClaims.
Local Open Scope R_scope.

Lemma min100_is_Rmin (x : R) : goals.min100 x = Rmin 100 x.
Proof.
  unfold goals.min100, Rmin.
  destruct (Rlt_dec x 100), (Rle_dec 100 x); lra.
Qed.

Lemma progress_formula (current target : R) :
  goals.progress current target
  = (if Rlt_dec 0 target then Rmin 100 (current / target * 100) else 0)
  /\ goals.progress current target <= 100.
Proof.
  unfold goals.progress.
  destruct (Rlt_dec 0 target).
  - rewrite min100_is_Rmin. split; [reflexivity | apply Rmin_l].
  - split; [reflexivity | lra].
Qed.

(** C5. The goal tracker returns exactly the three entries
    [portfolio_goal], [monthly_savings_goal] and [annual_income_goal]; the
    [progress_percentage] of each is [min(100, current / target * 100)] when
    its target is positive and 0 otherwise, hence never above 100: for a
    current value of 10,000,000 against a target of 500,000 it is 100. *)
Theorem goal_progress_is_clamped (now : Timestamp) (portfolio_data : Portfolio)
    (cashflow_data : list (string * Cashflow)) (df : DataFrame)
    (financial_goals : FinancialGoals) :
  let progress := goals.track_financial_goals now portfolio_data cashflow_data df
                    financial_goals in
  map fst progress
    = ["portfolio_goal"; "monthly_savings_goal"; "annual_income_goal"]%string
  /\ map (fun kv => target (snd kv)) progress
     = [target_portfolio_value financial_goals; monthly_savings_goal financial_goals;
        annual_income_goal financial_goals]
  /\ Forall (fun kv =>
       let g := snd kv in
       progress_percentage g
         = (if Rlt_dec 0 (target g) then Rmin 100 (current g / target g * 100) else 0)
       /\ progress_percentage g <= 100) progress
  /\ goals.progress 10000000 500000 = 100.
Proof.
  cbv zeta. unfold goals.track_financial_goals.
  split; [reflexivity|]. split; [reflexivity|]. split.
  - repeat (apply Forall_cons; [cbn [snd progress_percentage target current];
                                apply progress_formula|]).
    apply Forall_nil.
  - destruct (progress_formula 10000000 500000) as [E _]. rewrite E.
    destruct (Rlt_dec 0 500000) as [_|N]; [|lra].
    unfold Rmin. destruct (Rle_dec 100 (10000000 / 500000 * 100)) as [_|N]; lra.
Qed.

End GoalClaims.

(* ================================================================= *)
(** ** Grouping facts *)

Section GroupByFacts.
Context {K : Type}.
Variable cmp : K -> K -> comparison.

Let before (a b : K) : Prop := cmp a b = Lt.

Lemma In_insert_key_inv (k x : K) (ks : list K) :
  In x (insert_key cmp k ks) -> x = k \/ In x ks.
Proof.
  induction ks as [|k' tl IH]; simpl.
  - intros [->|[]]; now left.
  - destruct (cmp k k'); simpl; intuition.
Qed.

Hypothesis cmp_eq : forall a b, cmp a b = Eq -> a = b.

Lemma In_insert_key (k x : K) (ks : list K) :
  In x (insert_key cmp k ks) <-> x = k \/ In x ks.
Proof.
  split; [apply In_insert_key_inv|].
  induction ks as [|k' tl IH]; simpl.
  - intros [->|[]]; now left.
  - destruct (cmp k k') eqn:E; simpl.
    + apply cmp_eq in E; subst k'. intuition.
    + intuition.
    + intuition.
Qed.

Lemma In_sorted_unique (x : K) (ks : list K) :
  In x (sorted_unique cmp ks) <-> In x ks.
Proof.
  induction ks as [|k tl IH]; simpl; [tauto|].
  rewrite In_insert_key, IH. intuition.
Qed.

Hypothesis cmp_refl : forall a, cmp a a = Eq.
Hypothesis cmp_gt : forall a b, cmp a b = Gt -> cmp b a = Lt.
Hypothesis cmp_trans : forall a b c, cmp a b = Lt -> cmp b c = Lt -> cmp a c = Lt.

Lemma insert_key_sorted (k : K) (ks : list K) :
  StronglySorted before ks -> StronglySorted before (insert_key cmp k ks).
Proof.
  induction 1 as [|k' tl Hs IH Hall]; simpl.
  - constructor; constructor.
  - destruct (cmp k k') eqn:E.
    + now constructor.
    + constructor; [now constructor|].
      constructor; [exact E|].
      eapply Forall_impl; [|exact Hall].
      intros x Hx. now apply cmp_trans with k'.
    + constructor; [exact IH|].
      apply Forall_forall. intros x Hx.
      apply In_insert_key_inv in Hx as [->|Hx].
      * now apply cmp_gt.
      * rewrite Forall_forall in Hall. now apply Hall.
Qed.

Lemma sorted_unique_sorted (ks : list K) :
  StronglySorted before (sorted_unique cmp ks).
Proof.
  induction ks as [|k tl IH]; simpl; [constructor|].
  now apply insert_key_sorted.
Qed.

(** An ascending list is determined by its elements. *)
Lemma sorted_same_elements (l1 l2 : list K) :
  StronglySorted before l1 -> StronglySorted before l2 ->
  (forall x, In x l1 <-> In x l2) -> l1 = l2.
Proof.
  assert (irrefl : forall a, ~ before a a).
  { intros a H. unfold before in H. rewrite cmp_refl in H. discriminate. }
  intros H1; revert l2.
  induction H1 as [|a l1 Hs1 IH Ha]; intros l2 H2 Hin.
  - destruct l2 as [|b l2]; [reflexivity|].
    exfalso. apply (proj2 (Hin b)). now left.
  - destruct H2 as [|b l2 Hs2 Hb].
    + exfalso. apply (proj1 (Hin a)). now left.
    + rewrite Forall_forall in Ha, Hb.
      assert (a = b) as <-.
      { destruct (proj1 (Hin a) (or_introl eq_refl)) as [E|Hal2]; [now symmetry|].
        destruct (proj2 (Hin b) (or_introl eq_refl)) as [E|Hbl1]; [exact E|].
        exfalso. apply (irrefl a).
        apply cmp_trans with b; [now apply Ha | now apply Hb]. }
      f_equal. apply IH; [exact Hs2|].
      intros x; split; intros Hx.
      * destruct (proj1 (Hin x) (or_intror Hx)) as [E|Hx2]; [|exact Hx2].
        subst x. exfalso. apply (irrefl a). now apply Ha.
      * destruct (proj2 (Hin x) (or_intror Hx)) as [E|Hx1]; [|exact Hx1].
        subst x. exfalso. apply (irrefl a). now apply Hb.
Qed.

Lemma sorted_unique_perm (l1 l2 : list K) :
  Permutation l1 l2 -> sorted_unique cmp l1 = sorted_unique cmp l2.
Proof.
  intros HP. apply sorted_same_elements; try apply sorted_unique_sorted.
  intros x. rewrite !In_sorted_unique.
  split; apply Permutation_in; [exact HP | now apply Permutation_sym].
Qed.
End GroupByFacts.

(** *** The order of months *)

Lemma period_compare_eq (p q : Period) : period_compare p q = Eq -> p = q.
Proof.
  destruct p as [y m], q as [y' m']; unfold period_compare; simpl.
  destruct (y ?= y')%Z eqn:E; try discriminate.
  intros H. apply Z.compare_eq in E, H. congruence.
Qed.

Lemma period_compare_refl (p : Period) : period_compare p p = Eq.
Proof. unfold period_compare. now rewrite !Z.compare_refl. Qed.

Lemma period_compare_lt (p q : Period) :
  period_compare p q = Lt <-> Spec.month_before p q.
Proof.
  destruct p as [y m], q as [y' m']; unfold period_compare, Spec.month_before; simpl.
  destruct (Z.compare_spec y y'); rewrite ?Z.compare_lt_iff; split; intros; try lia; try discriminate;
    reflexivity.
Qed.

Lemma period_compare_gt (p q : Period) : period_compare p q = Gt -> period_compare q p = Lt.
Proof.
  intros H. apply period_compare_lt.
  destruct p as [y m], q as [y' m']; unfold period_compare, Spec.month_before in *; simpl in *.
  destruct (Z.compare_spec y y'); try discriminate; [|lia].
  apply Z.compare_gt_iff in H. lia.
Qed.

Lemma period_compare_trans (p q r : Period) :
  period_compare p q = Lt -> period_compare q r = Lt -> period_compare p r = Lt.
Proof.
  rewrite !period_compare_lt. unfold Spec.month_before. lia.
Qed.

Lemma same_key_period (p q : Period) :
  same_key period_compare p q = (fst p =? fst q)%Z && (snd p =? snd q)%Z.
Proof.
  unfold same_key.
  destruct (period_compare p q) eqn:E.
  - apply period_compare_eq in E; subst q. now rewrite !Z.eqb_refl.
  - apply period_compare_lt in E. unfold Spec.month_before in E.
    symmetry. apply andb_false_iff. rewrite !Z.eqb_neq. lia.
  - apply period_compare_gt, period_compare_lt in E. unfold Spec.month_before in E.
    symmetry. apply andb_false_iff. rewrite !Z.eqb_neq. lia.
Qed.

(* ================================================================= *)
(** ** Monthly cash balance *)

Section MonthlyBalance.
Local Open Scope R_scope.

Lemma combine_map_self {A B : Type} (f : A -> B) (l : list A) :
  combine (map f l) l = map (fun x => (f x, x)) l.
Proof. induction l as [|a l IH]; simpl; [reflexivity | now rewrite IH]. Qed.

Lemma map_fst_combine {A B : Type} (l : list A) (l' : list B) :
  List.length l = List.length l' -> map fst (combine l l') = l.
Proof.
  revert l'; induction l as [|a l IH]; intros [|b l'] H; simpl in *; try discriminate;
    [reflexivity|]. f_equal. apply IH. now injection H.
Qed.

Lemma map_snd_combine {A B : Type} (l : list A) (l' : list B) :
  List.length l = List.length l' -> map snd (combine l l') = l'.
Proof.
  revert l'; induction l as [|a l IH]; intros [|b l'] H; simpl in *; try discriminate;
    [reflexivity|]. f_equal. apply IH. now injection H.
Qed.

Lemma cumsum_from_length (acc : R) (l : list R) :
  List.length (Series.cumsum_from acc l) = List.length l.
Proof. revert acc; induction l as [|x l IH]; intros acc; simpl; [reflexivity | now rewrite IH]. Qed.

(** Each entry of a running total is the sum of the prefix it closes. *)
Lemma cumsum_from_nth (l : list R) (acc : R) (i : nat) :
  (i < List.length l)%nat ->
  nth i (Series.cumsum_from acc l) 0 = acc + Series.py_sum (firstn (S i) l).
Proof.
  revert acc i; induction l as [|x l IH]; intros acc i Hi; simpl in Hi; [lia|].
  destruct i as [|i].
  - simpl. lra.
  - change (nth i (Series.cumsum_from (acc + x) l) 0
            = acc + (x + Series.py_sum (firstn (S i) l))).
    rewrite IH by lia. lra.
Qed.

Lemma sum_filter_perm (f : Row -> bool) (l l' : list Row) :
  Permutation l l' ->
  Series.sum (map Amount (filter f l)) = Series.sum (map Amount (filter f l')).
Proof.
  induction 1 as [| x l l' _ IH | x y l | l l' l'' _ IH1 _ IH2]; simpl.
  - reflexivity.
  - destruct (f x); simpl; [destruct (Amount x)|]; lra.
  - destruct (f x), (f y); simpl; try destruct (Amount x); try destruct (Amount y); lra.
  - lra.
Qed.

Lemma month_flow_perm (p : Period) (l l' : list Row) :
  Permutation l l' -> Spec.month_flow p l = Spec.month_flow p l'.
Proof.
  intros HP. unfold Spec.month_flow.
  now rewrite (sum_filter_perm _ HP), (sum_filter_perm _ HP).
Qed.

Lemma group_month_net (p : Period) (l : list Row) :
  analytics.month_net
    (map snd (group period_compare fst p (map (fun r => (to_period_M (Date r), r)) l)))
  = Spec.month_flow p l.
Proof.
  assert (G : map snd (group period_compare fst p (map (fun r => (to_period_M (Date r), r)) l))
              = filter (Spec.in_month p) l).
  { unfold group. induction l as [|r l IH]; [reflexivity|].
    cbn [map filter fst]. rewrite same_key_period. unfold Spec.in_month at 1.
    cbn [to_period_M fst snd].
    destruct ((year (Date r) =? fst p)%Z && (month (Date r) =? snd p)%Z);
      cbn [map snd]; now rewrite IH. }
  rewrite G. unfold analytics.month_net, type_total, amounts_of_type, Spec.month_flow.
  now rewrite !filter_filter.
Qed.

(** The series the net-worth computation stores, in closed form. *)
Lemma monthly_cash_flow_closed_form (df : DataFrame) :
  analytics.monthly_cash_flow (assign_Month df)
  = let months := sorted_unique period_compare (months_of (rows df)) in
    combine months (Series.cumsum (map (fun p => Spec.month_flow p (rows df)) months)).
Proof.
  unfold analytics.monthly_cash_flow, with_Month, assign_Month; cbn [Month rows].
  unfold months_of at 1 2. rewrite combine_map_self. unfold groupby.
  assert (M : map fst (map (fun x : Row => (to_period_M (Date x), x)) (rows df))
              = months_of (rows df)).
  { rewrite map_map. reflexivity. }
  rewrite M. rewrite !map_map. cbn [fst snd]. rewrite map_id.
  f_equal. f_equal. apply map_ext. intros p. apply group_month_net.
Qed.

Lemma monthly_cash_flow_perm (df df' : DataFrame) :
  Permutation (rows df) (rows df') ->
  analytics.monthly_cash_flow (assign_Month df) = analytics.monthly_cash_flow (assign_Month df').
Proof.
  intros HP. rewrite !monthly_cash_flow_closed_form. cbv zeta.
  assert (E : sorted_unique period_compare (months_of (rows df))
              = sorted_unique period_compare (months_of (rows df'))).
  { apply sorted_unique_perm;
      [ apply period_compare_eq | apply period_compare_refl | apply period_compare_gt
      | apply period_compare_trans | now apply Permutation_map ]. }
  rewrite E.
  f_equal. f_equal. apply map_ext. intros p. now apply month_flow_perm.
Qed.

Lemma sorted_months_distinct (l : list Period) :
  StronglySorted Spec.month_before l -> NoDup l.
Proof.
  induction 1 as [|p l _ IH Hall]; constructor; [|exact IH].
  intros Hin. rewrite Forall_forall in Hall. specialize (Hall p Hin).
  unfold Spec.month_before in Hall. lia.
Qed.

Lemma sorted_unique_months_sorted (l : list Period) :
  StronglySorted Spec.month_before (sorted_unique period_compare l).
Proof.
  pose proof (@sorted_unique_sorted _ period_compare period_compare_gt period_compare_trans l)
    as H.
  induction H as [|p ks _ IH Hall]; constructor; [exact IH|].
  eapply Forall_impl; [|exact Hall]. intros q. apply period_compare_lt.
Qed.

End MonthlyBalance.

Section MonthlyBalanceClaim.
Local Open Scope R_scope.

(** C4. For a non-empty ledger the [monthly_cash_balance] of the snapshot
    has exactly one key per calendar month present in the ledger, in
    chronological order whatever the order of the rows, and the value at
    each month is the sum of the monthly net flows (income minus expenses
    of the month) up to and including that month. Net flows 100, -30, 50
    give the series 100, 70, 120. *)
Theorem monthly_cash_balance_is_running_total (df : DataFrame)
    (starting_capital investment_value : R) :
  empty df = false ->
  let balance := analytics.monthly_cash_balance
                   (fst (analytics.calculate_net_worth df starting_capital investment_value)) in
  let months := map fst balance in
  (forall p, In p months <-> exists r, In r (rows df) /\ to_period_M (Date r) = p)
  /\ StronglySorted Spec.month_before months
  /\ NoDup months
  /\ (forall i, (i < List.length months)%nat ->
        nth i (map snd balance) 0
        = Series.py_sum (map (fun p => Spec.month_flow p (rows df)) (firstn (S i) months)))
  /\ (forall df', Permutation (rows df) (rows df') ->
        analytics.monthly_cash_balance
          (fst (analytics.calculate_net_worth df' starting_capital investment_value))
        = balance)
  /\ Series.cumsum [100; -30; 50] = [100; 70; 120].
Proof.
  intros Hne.
  assert (B : forall d, empty d = false ->
            analytics.monthly_cash_balance
              (fst (analytics.calculate_net_worth d starting_capital investment_value))
            = analytics.monthly_cash_flow (assign_Month d)).
  { intros d Hd. unfold analytics.calculate_net_worth. now rewrite Hd. }
  cbv zeta. rewrite (B df Hne), monthly_cash_flow_closed_form. cbv zeta.
  set (months := sorted_unique period_compare (months_of (rows df))).
  set (flows := map (fun p => Spec.month_flow p (rows df)) months).
  assert (L : List.length months = List.length (Series.cumsum flows)).
  { unfold Series.cumsum, flows. now rewrite cumsum_from_length, length_map. }
  rewrite (map_fst_combine _ _ L), (map_snd_combine _ _ L).
  assert (S : StronglySorted Spec.month_before months)
    by apply sorted_unique_months_sorted.
  repeat split.
  - intros Hp. unfold months in Hp.
    apply (proj1 (@In_sorted_unique _ _ period_compare_eq _ _)) in Hp.
    apply in_map_iff in Hp as (r & E & Hr). now exists r.
  - intros (r & Hr & E). unfold months.
    apply (proj2 (@In_sorted_unique _ _ period_compare_eq _ _)).
    apply in_map_iff. now exists r.
  - exact S.
  - now apply sorted_months_distinct.
  - intros i Hi. unfold Series.cumsum.
    rewrite cumsum_from_nth by (unfold flows; now rewrite length_map).
    unfold flows. rewrite firstn_map. lra.
  - intros df' HP.
    assert (Hne' : empty df' = false).
    { unfold empty in *. destruct (rows df') as [|r' l']; [|reflexivity].
      apply Permutation_sym, Permutation_nil in HP. now rewrite HP in Hne. }
    rewrite (B df' Hne'), <- (monthly_cash_flow_perm df df' HP).
    apply monthly_cash_flow_closed_form.
  - unfold Series.cumsum; simpl. repeat f_equal; lra.
Qed.

Lemma monthly_cash_balance_is_running_total_witness :
  let df := mkDataFrame Samples.scenario None in
  empty df = false
  /\ StronglySorted Spec.month_before
       (map fst (analytics.monthly_cash_balance
                   (fst (analytics.calculate_net_worth df 2000000 0)))).
Proof.
  split; [reflexivity|].
  apply (monthly_cash_balance_is_running_total
           (mkDataFrame Samples.scenario None) 2000000 0 eq_refl).
Defined.

(** The months of the scenario and its running balance. *)
Lemma scenario_monthly_cash_balance :
  let balance := analytics.monthly_cash_balance
                   (fst (analytics.calculate_net_worth
                           (mkDataFrame Samples.scenario None) 2000000 0)) in
  map fst balance = [(2024, 1); (2024, 2)]%Z
  /\ nth 0 (map snd balance) 0 = 45000
  /\ nth 1 (map snd balance) 0 = 25000.
Proof.
  cbv zeta. unfold analytics.calculate_net_worth.
  cbn [empty rows Samples.scenario fst analytics.monthly_cash_balance].
  rewrite monthly_cash_flow_closed_form. cbv zeta.
  change (sorted_unique period_compare (months_of (rows (mkDataFrame Samples.scenario None))))
    with [(2024, 1); (2024, 2)]%Z.
  cbn [map]. unfold Spec.month_flow.
  cbn [rows Samples.scenario filter Spec.in_month Date Type_ year month Samples.on fst snd
       Z.eqb Pos.eqb andb String.eqb Ascii.eqb Bool.eqb map Amount Series.sum].
  unfold Series.cumsum. cbn [Series.cumsum_from combine map fst snd nth].
  repeat split; lra.
Qed.

End MonthlyBalanceClaim.

(* ================================================================= *)
(** ** Investment breakdown *)

Section Breakdown.
Import finance_dashboard.
Local Open Scope R_scope.

Lemma string_compare_refl (s : string) : String.compare s s = Eq.
Proof.
  pose proof (String.compare_antisym s s) as H.
  destruct (String.compare s s); [reflexivity | discriminate | discriminate].
Qed.

Lemma same_key_string (a b : string) : same_key String.compare a b = String.eqb a b.
Proof.
  unfold same_key. destruct (String.eqb_spec a b) as [->|N].
  - now rewrite string_compare_refl.
  - destruct (String.compare a b) eqn:E; try reflexivity.
    now apply String.compare_eq_iff in E.
Qed.

Lemma get_tabulate {V : Type} (f : string -> V) (c : string) (keys : list string) :
  Spec.get c (map (fun k => (k, f k)) keys)
  = if existsb (String.eqb c) keys then Some (f c) else None.
Proof.
  induction keys as [|k keys IH]; [reflexivity|].
  cbn [map Spec.get existsb].
  destruct (String.eqb_spec c k) as [->|N]; [reflexivity | exact IH].
Qed.

(** The categories that key the breakdown. *)
Lemma breakdown_keys (c : string) (l : list Row) :
  existsb (String.eqb c)
    (sorted_unique String.compare (map Category (filter is_investment_category l)))
  = Text.str_contains ["Investment"%string; "Mutual Fund"%string] c
    && existsb (fun r => String.eqb (Category r) c) l.
Proof.
  apply eq_true_iff_eq.
  rewrite andb_true_iff, !existsb_exists. split.
  - intros (k & Hk & E). apply String.eqb_eq in E; subst k.
    apply (proj1 (@In_sorted_unique _ _ String.compare_eq_iff _ _)) in Hk.
    apply in_map_iff in Hk as (r & E & Hr). apply filter_In in Hr as [Hr Hm].
    unfold is_investment_category in Hm. rewrite E in Hm. split; [exact Hm|].
    exists r. split; [exact Hr | now apply String.eqb_eq].
  - intros [Hm (r & Hr & E)]. apply String.eqb_eq in E.
    exists c. split; [|apply String.eqb_refl].
    apply (proj2 (@In_sorted_unique _ _ String.compare_eq_iff _ _)).
    apply in_map_iff. exists r. split; [exact E|].
    apply filter_In. split; [exact Hr|].
    unfold is_investment_category. now rewrite E.
Qed.

(** The rows of one matching category: all of them, whatever their type. *)
Lemma breakdown_group (c : string) (l : list Row) :
  Text.str_contains ["Investment"%string; "Mutual Fund"%string] c = true ->
  group String.compare Category c (filter is_investment_category l)
  = filter (fun r => String.eqb (Category r) c) l.
Proof.
  intros Hm. unfold group. rewrite filter_filter.
  apply filter_ext. intros r. rewrite same_key_string.
  destruct (String.eqb_spec (Category r) c) as [E|N]; [|apply andb_false_r].
  unfold is_investment_category. now rewrite E, Hm.
Qed.

(** C8. The breakdown of the portfolio summary maps each category of the
    ledger whose name contains "Investment" or "Mutual Fund", in any letter
    case, to the total of the amounts of all the transactions of that
    category, Income rows included, and has no other key; [total_invested]
    totals only the Expense rows of the matching categories. *)
Theorem breakdown_sums_every_kind (self : PersonalFinanceDashboard) (now : Timestamp) :
  let p := track_investment_portfolio self now in
  (forall c : string,
     Spec.get c (investment_breakdown p)
     = if Text.str_contains ["Investment"%string; "Mutual Fund"%string] c
          && existsb (fun r => String.eqb (Category r) c) (csv_file self)
       then Some (Series.sum (map Amount
                    (filter (fun r => String.eqb (Category r) c) (csv_file self))))
       else None)
  /\ total_invested p
     = Series.sum (map Amount
         (filter (fun r => Text.str_contains ["Investment"%string; "Mutual Fund"%string]
                             (Category r)
                           && String.eqb (Type_ r) "Expense") (csv_file self))).
Proof.
  cbv zeta. unfold track_investment_portfolio, read_transactions.
  cbn [investment_breakdown total_invested rows]. split.
  - intros c. unfold groupby. rewrite map_map. cbn [fst snd].
    rewrite (get_tabulate
               (fun k => Series.sum (map Amount
                  (group String.compare Category k
                     (filter is_investment_category (csv_file self)))))).
    rewrite breakdown_keys.
    destruct (Text.str_contains ["Investment"%string; "Mutual Fund"%string] c) eqn:Hm;
      [|reflexivity].
    cbn [andb]. now rewrite breakdown_group.
  - unfold type_total, amounts_of_type. now rewrite filter_filter.
Qed.

End Breakdown.

(* ================================================================= *)
(** ** Effects on the caller's frame *)

Section FrameEffect.
Local Open Scope R_scope.

(** C9, as stated, fails: the net-worth computation changes the frame it is
    given. A caller's frame without a ['Month'] column has one after the
    call. *)
Lemma net_worth_writes_month_column :
  let df := mkDataFrame Samples.scenario None in
  snd (analytics.calculate_net_worth df 2000000 0) <> df
  /\ Month (snd (analytics.calculate_net_worth df 2000000 0))
     = Some [(2024, 1); (2024, 1); (2024, 2)]%Z.
Proof.
  split.
  - intros H. apply (f_equal Month) in H. discriminate H.
  - reflexivity.
Qed.

(** C9, amended. The net-worth computation leaves the transactions of the
    frame as they were; on a non-empty frame it writes the derived
    ['Month'] column into the caller's frame, and leaves an empty frame
    untouched. Its result depends on the transactions only, so calling it
    again on the frame it left behind returns the same snapshot and leaves
    that frame as it is. *)
Theorem net_worth_frame_effect (df : DataFrame) (starting_capital investment_value : R) :
  let call := analytics.calculate_net_worth df starting_capital investment_value in
  rows (snd call) = rows df
  /\ Month (snd call) = (if empty df then Month df else Some (months_of (rows df)))
  /\ analytics.calculate_net_worth (snd call) starting_capital investment_value = call
  /\ (forall month_col,
        fst (analytics.calculate_net_worth (mkDataFrame (rows df) month_col)
               starting_capital investment_value)
        = fst call).
Proof.
  cbv zeta. unfold analytics.calculate_net_worth, empty.
  destruct df as [l col]; cbn [rows Month].
  destruct l as [|r l]; cbn [snd fst rows Month assign_Month].
  - repeat split.
  - repeat split.
Qed.

End FrameEffect.

(* ================================================================= *)
(** ** The scenario of the specification *)

Section Scenario.
Import finance_dashboard.
Local Open Scope R_scope.

(** Cash after a salary of 50000, groceries for 5000 and a fund purchase of
    20000 on a starting capital of 2000000. *)
Lemma scenario_current_cash :
  analytics.current_cash
    (fst (analytics.calculate_net_worth (read_transactions Samples.scenario_dashboard)
            2000000 0))
  = 2025000.
Proof.
  unfold analytics.calculate_net_worth.
  cbn [empty read_transactions csv_file rows Samples.scenario_dashboard Samples.scenario
       fst analytics.current_cash].
  unfold type_total, amounts_of_type. simpl.
  lra.
Qed.

(** Its monthly cash flow: January and February 2024. *)
Lemma scenario_monthly_cashflow :
  let report := calculate_monthly_cashflow Samples.scenario_dashboard in
  map fst report = ["2024-01"; "2024-02"]%string
  /\ map (fun kv => income (snd kv)) report = [50000 + 0; 0]
  /\ map (fun kv => expenses (snd kv)) report = [5000 + 0; 20000 + 0]
  /\ map (fun kv => net_flow (snd kv)) report = [50000 + 0 - (5000 + 0); 0 - (20000 + 0)].
Proof.
  repeat split.
Qed.

End Scenario.

(* ================================================================= *)
(** * Further properties of the code *)

(** ** Totals by key *)

Section TotalsByKey.
Local Open Scope R_scope.
Context {K : Type}.
Variable key : Row -> K.
Variable eqb : K -> K -> bool.
Hypothesis eqb_eq : forall a b, eqb a b = true <-> a = b.

Lemma one_key_selected (k : K) (x : R) (keys : list K) :
  NoDup keys -> In k keys ->
  Series.py_sum (map (fun k' => if eqb k k' then x else 0) keys) = x.
Proof.
  induction 1 as [|k0 keys Hnot _ IH]; intros Hin; [destruct Hin|].
  cbn [map Series.py_sum].
  destruct (eqb k k0) eqn:E.
  - apply eqb_eq in E; subst k0.
    assert (Z : Series.py_sum (map (fun k' => if eqb k k' then x else 0) keys) = 0).
    { clear IH Hin. induction keys as [|k1 keys IH]; [reflexivity|].
      cbn [map Series.py_sum].
      destruct (eqb k k1) eqn:E1.
      - apply eqb_eq in E1; subst k1. exfalso. apply Hnot. now left.
      - rewrite IH; [lra|]. intros H. apply Hnot. now right. }
    rewrite Z. lra.
  - destruct Hin as [->|Hin].
    + assert (eqb k k = true) by now apply eqb_eq. congruence.
    + rewrite IH by assumption. lra.
Qed.

Lemma no_key_selected (keys : list K) :
  Series.py_sum (map (fun _ : K => 0) keys) = 0.
Proof. induction keys as [|k keys IH]; simpl; [reflexivity | rewrite IH; lra]. Qed.

Lemma py_sum_plus {A : Type} (f g : A -> R) (l : list A) :
  Series.py_sum (map (fun x => f x + g x) l)
  = Series.py_sum (map f l) + Series.py_sum (map g l).
Proof. induction l as [|a l IH]; simpl; [lra | rewrite IH; lra]. Qed.

(** Summing group by group is summing once: every selected row belongs to
    exactly one of the distinct keys. *)
Lemma sum_by_key (f : Row -> bool) (keys : list K) (l : list Row) :
  NoDup keys ->
  (forall r, In r l -> f r = true -> In (key r) keys) ->
  Series.py_sum
    (map (fun k => Series.sum (map Amount (filter (fun r => eqb (key r) k && f r) l))) keys)
  = Series.sum (map Amount (filter f l)).
Proof.
  intros Hnd. induction l as [|r l IH]; intros Hcover.
  - cbn [filter map Series.sum]. apply no_key_selected.
  - assert (IH' := IH (fun r' H => Hcover r' (or_intror H))). clear IH.
    set (x := match Amount r with Some a => a | None => 0 end).
    assert (E : forall k,
               Series.sum (map Amount (filter (fun r' => eqb (key r') k && f r') (r :: l)))
               = (if eqb (key r) k then (if f r then x else 0) else 0)
                 + Series.sum (map Amount (filter (fun r' => eqb (key r') k && f r') l))).
    { intros k. cbn [filter]. subst x.
      destruct (eqb (key r) k), (f r); cbn [andb map Series.sum];
        try destruct (Amount r); lra. }
    rewrite (map_ext _ _ E), py_sum_plus, IH'.
    cbn [filter]. destruct (f r) eqn:Hf.
    + rewrite one_key_selected; [| exact Hnd | apply Hcover; [now left | exact Hf]].
      subst x. cbn [map Series.sum]. destruct (Amount r); lra.
    + assert (Z : Series.py_sum (map (fun k : K => if eqb (key r) k then 0 else 0) keys) = 0).
      { rewrite (map_ext _ (fun _ : K => 0)); [apply no_key_selected|].
        intros k. now destruct (eqb (key r) k). }
      rewrite Z. lra.
Qed.

End TotalsByKey.

Lemma sum_filter_split (f g : Row -> bool) (l : list Row) :
  Series.sum (map Amount (filter f l))
  = (Series.sum (map Amount (filter (fun r => f r && g r) l))
     + Series.sum (map Amount (filter (fun r => f r && negb (g r)) l)))%R.
Proof.
  induction l as [|r l IH]; cbn [filter map Series.sum]; [lra|].
  destruct (f r), (g r); cbn [andb negb map Series.sum]; try destruct (Amount r); lra.
Qed.

(* ================================================================= *)
(** ** Monthly cash flow report *)

Section CashflowReport.
Import finance_dashboard.
Local Open Scope R_scope.

(** The rows of one month group. *)
Lemma month_group (p : Period) (l : list Row) :
  map snd (group period_compare fst p (map (fun r => (to_period_M (Date r), r)) l))
  = filter (Spec.in_month p) l.
Proof.
  unfold group. induction l as [|r l IH]; [reflexivity|].
  cbn [map filter fst]. rewrite same_key_period. unfold Spec.in_month at 1.
  cbn [to_period_M fst snd].
  destruct ((year (Date r) =? fst p)%Z && (month (Date r) =? snd p)%Z);
    cbn [map snd]; now rewrite IH.
Qed.

(** Income and expenses of one month of a ledger. *)
Lemma calculate_monthly_cashflow_closed_form (self : PersonalFinanceDashboard) :
  calculate_monthly_cashflow self
  = map (fun p =>
           let i := Series.sum (map Amount
                      (filter (fun t => Spec.in_month p t && String.eqb (Type_ t) "Income")
                              (csv_file self))) in
           let e := Series.sum (map Amount
                      (filter (fun t => Spec.in_month p t && String.eqb (Type_ t) "Expense")
                              (csv_file self))) in
           (period_str p, mkCashflow i e (i - e)))
        (sorted_unique period_compare (months_of (csv_file self))).
Proof.
  unfold calculate_monthly_cashflow, read_transactions, empty. cbn [rows].
  destruct (csv_file self) as [|r0 l0] eqn:E; [reflexivity|]. rewrite <- E. clear E.
  unfold with_Month, assign_Month. cbn [Month rows].
  unfold months_of. rewrite combine_map_self.
  assert (M : map fst (map (fun x : Row => (to_period_M (Date x), x)) (csv_file self))
              = map (fun r => to_period_M (Date r)) (csv_file self)).
  { rewrite map_map. reflexivity. }
  rewrite M. apply map_ext. intros p. cbv zeta.
  rewrite month_group.
  unfold type_total, amounts_of_type. now rewrite !filter_filter.
Qed.

Lemma ledger_months (l : list Row) :
  let months := sorted_unique period_compare (months_of l) in
  StronglySorted Spec.month_before months
  /\ NoDup months
  /\ (forall p, In p months <-> exists r, In r l /\ to_period_M (Date r) = p).
Proof.
  cbv zeta. split; [apply sorted_unique_months_sorted|].
  split; [apply sorted_months_distinct, sorted_unique_months_sorted|].
  intros p. split.
  - intros Hp. apply (proj1 (@In_sorted_unique _ _ period_compare_eq _ _)) in Hp.
    apply in_map_iff in Hp as (r & E & Hr). now exists r.
  - intros (r & Hr & E). apply (proj2 (@In_sorted_unique _ _ period_compare_eq _ _)).
    apply in_map_iff. now exists r.
Qed.

Lemma py_sum_minus {A : Type} (f g : A -> R) (l : list A) :
  Series.py_sum (map (fun x => f x - g x) l)
  = Series.py_sum (map f l) - Series.py_sum (map g l).
Proof. induction l as [|a l IH]; simpl; [lra | rewrite IH; lra]. Qed.

Lemma period_eqb_eq (a b : Period) : period_eqb a b = true <-> a = b.
Proof.
  unfold period_eqb. destruct a, b; cbn [fst snd].
  rewrite andb_true_iff, !Z.eqb_eq. split; [intros [-> ->]; reflexivity|].
  intros H; injection H; auto.
Qed.

(** The totals of the months of a ledger add up to the total of the ledger. *)
Lemma month_totals_add_up (kind : string) (l : list Row) :
  Series.py_sum
    (map (fun p => Series.sum (map Amount
            (filter (fun t => Spec.in_month p t && String.eqb (Type_ t) kind) l)))
         (sorted_unique period_compare (months_of l)))
  = Series.sum (map Amount (filter (fun r => String.eqb (Type_ r) kind) l)).
Proof.
  destruct (ledger_months l) as (_ & ND & M).
  apply (@sum_by_key _ (fun r => to_period_M (Date r)) period_eqb period_eqb_eq
           (fun r => String.eqb (Type_ r) kind) _ l ND).
  intros r Hr _. apply M. now exists r.
Qed.

(** X1. The report has one entry per calendar month of the ledger, in
    chronological order and keyed by the month's text; each entry holds the
    Income total and the Expense total of the transactions of that month and
    their difference. *)
Theorem monthly_cashflow_report (self : PersonalFinanceDashboard) :
  exists months : list Period,
    StronglySorted Spec.month_before months
    /\ (forall p, In p months <-> exists r, In r (csv_file self) /\ to_period_M (Date r) = p)
    /\ map fst (calculate_monthly_cashflow self) = map period_str months
    /\ map (fun kv => income (snd kv)) (calculate_monthly_cashflow self)
       = map (fun p => Series.sum (map Amount
                 (filter (fun t => Spec.in_month p t && String.eqb (Type_ t) "Income")
                         (csv_file self)))) months
    /\ map (fun kv => expenses (snd kv)) (calculate_monthly_cashflow self)
       = map (fun p => Series.sum (map Amount
                 (filter (fun t => Spec.in_month p t && String.eqb (Type_ t) "Expense")
                         (csv_file self)))) months
    /\ Forall (fun kv => net_flow (snd kv) = income (snd kv) - expenses (snd kv))
              (calculate_monthly_cashflow self).
Proof.
  exists (sorted_unique period_compare (months_of (csv_file self))).
  destruct (ledger_months (csv_file self)) as (S & _ & M).
  rewrite calculate_monthly_cashflow_closed_form.
  split; [exact S|]. split; [exact M|].
  rewrite !map_map. cbn [fst snd income expenses].
  repeat split.
  apply Forall_forall. intros kv Hkv. apply in_map_iff in Hkv as (p & <- & _).
  reflexivity.
Qed.

Lemma net_flows_total (self : PersonalFinanceDashboard) :
  Series.py_sum (map (fun kv => net_flow (snd kv)) (calculate_monthly_cashflow self))
  = Series.sum (map Amount (filter (fun r => String.eqb (Type_ r) "Income") (csv_file self)))
    - Series.sum (map Amount (filter (fun r => String.eqb (Type_ r) "Expense") (csv_file self))).
Proof.
  rewrite calculate_monthly_cashflow_closed_form, map_map. cbn [snd net_flow].
  rewrite py_sum_minus.
  now rewrite !month_totals_add_up.
Qed.

(** X2. The net flows of the months add up to the Income total minus the
    Expense total of the whole ledger: no transaction is lost or counted
    twice by the grouping. *)
Theorem monthly_net_flows_add_up (self : PersonalFinanceDashboard) :
  Series.py_sum (map (fun kv => net_flow (snd kv)) (calculate_monthly_cashflow self))
  = Series.sum (map Amount (filter (fun r => String.eqb (Type_ r) "Income") (csv_file self)))
    - Series.sum (map Amount (filter (fun r => String.eqb (Type_ r) "Expense") (csv_file self))).
Proof. exact (net_flows_total self). Qed.

End CashflowReport.

(* ================================================================= *)
(** ** The cash balance series and the report *)

Section BalanceAndReport.
Import finance_dashboard.
Local Open Scope R_scope.

Lemma balance_of_ledger (df : DataFrame) (starting_capital investment_value : R) :
  analytics.monthly_cash_balance
    (fst (analytics.calculate_net_worth df starting_capital investment_value))
  = let months := sorted_unique period_compare (months_of (rows df)) in
    combine months (Series.cumsum (map (fun p => Spec.month_flow p (rows df)) months)).
Proof.
  unfold analytics.calculate_net_worth, empty.
  destruct (rows df) as [|r l] eqn:E.
  - reflexivity.
  - cbn [fst analytics.monthly_cash_balance].
    rewrite monthly_cash_flow_closed_form. now rewrite E.
Qed.

Lemma balance_lengths (l : list Row) :
  let months := sorted_unique period_compare (months_of l) in
  List.length months
  = List.length (Series.cumsum (map (fun p => Spec.month_flow p l) months)).
Proof. cbv zeta. unfold Series.cumsum. now rewrite cumsum_from_length, length_map. Qed.

(** X3. The monthly cash balance of the net-worth snapshot is the running total
    of the net flows of the monthly cash flow report, month for month. *)
Theorem cash_balance_follows_report (self : PersonalFinanceDashboard)
    (investment_value : R) :
  let balance := analytics.monthly_cash_balance
                   (fst (analytics.calculate_net_worth (read_transactions self)
                           (starting_capital self) investment_value)) in
  let report := calculate_monthly_cashflow self in
  map (fun kv => period_str (fst kv)) balance = map fst report
  /\ map snd balance = Series.cumsum (map (fun kv => net_flow (snd kv)) report).
Proof.
  cbv zeta. rewrite balance_of_ledger, calculate_monthly_cashflow_closed_form.
  cbn [rows read_transactions]. cbv zeta.
  pose proof (balance_lengths (csv_file self)) as L. cbv zeta in L.
  split.
  - rewrite <- (map_map fst period_str), (map_fst_combine _ _ L).
    rewrite map_map. reflexivity.
  - rewrite (map_snd_combine _ _ L), map_map. reflexivity.
Qed.

(** X4. The cash trend of the figure is drawn exactly for a non-empty ledger;
    it has one point per month and its last point is the current cash
    balance of the snapshot. *)
Theorem cash_trend_ends_at_current_cash (df : DataFrame)
    (starting_capital investment_value : R) (currency : string) :
  let nw := fst (analytics.calculate_net_worth df starting_capital investment_value) in
  let trend := visual.cash_trend (Some (analytics.monthly_cash_balance nw))
                 currency starting_capital in
  (empty df = true -> trend = None)
  /\ (empty df = false ->
      exists t, trend = Some t
        /\ List.length (visual.cash_values t) = List.length (visual.trend_months t)
        /\ visual.trend_months t
           = map period_str (sorted_unique period_compare (months_of (rows df)))
        /\ last (visual.cash_values t) 0 = analytics.current_cash nw).
Proof.
  cbv zeta. split.
  - intros He. unfold analytics.calculate_net_worth. now rewrite He.
  - intros He. rewrite balance_of_ledger. cbv zeta.
    pose proof (balance_lengths (rows df)) as L. cbv zeta in L.
    set (months := sorted_unique period_compare (months_of (rows df))) in *.
    set (flows := map (fun p => Spec.month_flow p (rows df)) months) in *.
    assert (Hm : months <> []).
    { unfold empty in He. destruct (rows df) as [|r l] eqn:E; [discriminate|].
      intros Hnil.
      assert (Hin : In (to_period_M (Date r)) months).
      { apply (proj2 (@In_sorted_unique _ _ period_compare_eq _ _)).
        apply in_map_iff. exists r. split; [reflexivity | now left]. }
      rewrite Hnil in Hin. destruct Hin. }
    assert (Hf : flows <> []).
    { intros Hnil. apply Hm. unfold flows in Hnil.
      destruct months; [reflexivity | discriminate]. }
    destruct (combine months (Series.cumsum flows)) as [|kv0 rest] eqn:C.
    + exfalso. apply (f_equal (map fst)) in C. rewrite (map_fst_combine _ _ L) in C.
      now apply Hm.
    + eexists. split; [reflexivity|]. cbn [visual.cash_values visual.trend_months].
      rewrite <- C. split; [now rewrite !length_map|]. split.
      * now rewrite <- (map_map fst period_str), (map_fst_combine _ _ L).
      * rewrite <- (map_map snd (fun v => starting_capital + v)), (map_snd_combine _ _ L).
        unfold Series.cumsum.
        assert (Hlast : forall l acc, l <> [] ->
                  last (map (fun v => starting_capital + v) (Series.cumsum_from acc l)) 0
                  = starting_capital + (acc + Series.py_sum l)).
        { induction l as [|x l IH]; intros acc Hne; [congruence|].
          destruct l as [|y l]; [simpl; lra|].
          change (last (map (fun v => starting_capital + v)
                          (Series.cumsum_from (acc + x) (y :: l))) 0
                  = starting_capital + (acc + (x + Series.py_sum (y :: l)))).
          rewrite IH by discriminate. lra. }
        rewrite (Hlast flows 0 Hf).
        unfold analytics.calculate_net_worth. rewrite He.
        cbn [fst analytics.current_cash]. unfold flows, Spec.month_flow.
        rewrite py_sum_minus, !month_totals_add_up.
        unfold type_total, amounts_of_type. lra.
Qed.

Lemma cash_trend_ends_at_current_cash_witness :
  let df := mkDataFrame Samples.scenario None in
  empty df = false
  /\ exists t,
       visual.cash_trend
         (Some (analytics.monthly_cash_balance
                  (fst (analytics.calculate_net_worth df 2000000 0)))) "INR" 2000000
       = Some t
       /\ last (visual.cash_values t) 0
          = analytics.current_cash (fst (analytics.calculate_net_worth df 2000000 0)).
Proof.
  split; [reflexivity|].
  destruct (proj2 (cash_trend_ends_at_current_cash (mkDataFrame Samples.scenario None)
                     2000000 0 "INR") eq_refl) as (t & Ht & _ & _ & Hlast).
  exists t. split; [exact Ht | exact Hlast].
Defined.

End BalanceAndReport.

(* ================================================================= *)
(** ** Keys of the report *)

Section ReportKeys.
Import finance_dashboard.
Local Open Scope Z_scope.

Lemma digit_inj (a b : Z) : digit a = digit b -> a mod 10 = b mod 10.
Proof.
  unfold digit. intros H. apply (f_equal nat_of_ascii) in H.
  pose proof (Z.mod_pos_bound a 10 eq_refl).
  pose proof (Z.mod_pos_bound b 10 eq_refl).
  rewrite !nat_ascii_embedding in H by lia. lia.
Qed.

Lemma four_digits (y : Z) :
  0 <= y < 10000 ->
  y = 1000 * ((y / 1000) mod 10) + 100 * ((y / 100) mod 10) + 10 * ((y / 10) mod 10)
      + y mod 10.
Proof.
  intros H.
  replace (y / 1000) with (y / 10 / 10 / 10) by (rewrite !Z.div_div by lia; reflexivity).
  replace (y / 100) with (y / 10 / 10) by (rewrite !Z.div_div by lia; reflexivity).
  pose proof (Z.div_mod y 10 ltac:(lia)) as E0.
  pose proof (Z.mod_pos_bound y 10 eq_refl) as B0.
  pose proof (Z.div_mod (y / 10) 10 ltac:(lia)) as E1.
  pose proof (Z.mod_pos_bound (y / 10) 10 eq_refl) as B1.
  pose proof (Z.div_mod (y / 10 / 10) 10 ltac:(lia)) as E2.
  pose proof (Z.mod_pos_bound (y / 10 / 10) 10 eq_refl) as B2.
  pose proof (Z.div_mod (y / 10 / 10 / 10) 10 ltac:(lia)) as E3.
  pose proof (Z.mod_pos_bound (y / 10 / 10 / 10) 10 eq_refl) as B3.
  generalize dependent (y mod 10). generalize dependent ((y / 10) mod 10).
  generalize dependent ((y / 10 / 10) mod 10).
  generalize dependent ((y / 10 / 10 / 10) mod 10).
  generalize dependent (y / 10 / 10 / 10 / 10). generalize dependent (y / 10 / 10 / 10).
  generalize dependent (y / 10 / 10). generalize dependent (y / 10).
  intros. lia.
Qed.

Lemma two_digits (m : Z) : 0 <= m < 100 -> m = 10 * ((m / 10) mod 10) + m mod 10.
Proof.
  intros H.
  pose proof (Z.div_mod m 10 ltac:(lia)) as E0.
  pose proof (Z.mod_pos_bound m 10 eq_refl) as B0.
  pose proof (Z.div_mod (m / 10) 10 ltac:(lia)) as E1.
  pose proof (Z.mod_pos_bound (m / 10) 10 eq_refl) as B1.
  generalize dependent (m mod 10). generalize dependent ((m / 10) mod 10).
  generalize dependent (m / 10 / 10). generalize dependent (m / 10).
  intros. lia.
Qed.

(** Months with a four-digit year have different texts. *)
Lemma period_str_inj (p q : Period) :
  0 <= fst p < 10000 -> 0 <= snd p < 100 ->
  0 <= fst q < 10000 -> 0 <= snd q < 100 ->
  period_str p = period_str q -> p = q.
Proof.
  destruct p as [y m], q as [y' m']. cbn [fst snd]. intros Hy Hm Hy' Hm' H.
  unfold period_str in H. cbn [fst snd] in H.
  injection H as H1 H2 H3 H4 H5 H6.
  apply digit_inj in H1, H2, H3, H4, H5, H6.
  f_equal.
  - rewrite (four_digits Hy), (four_digits Hy'). congruence.
  - rewrite (two_digits Hm), (two_digits Hm'). congruence.
Qed.

(** X5. For dates with a four-digit year and a month from 1 to 12, the keys of
    the monthly cash flow report are pairwise distinct: the dictionary
    keeps one entry per month and none overwrites another. *)
Theorem monthly_cashflow_keys_distinct (self : PersonalFinanceDashboard) :
  Forall (fun r => 0 <= year (Date r) < 10000 /\ 1 <= month (Date r) <= 12) (csv_file self) ->
  NoDup (map fst (calculate_monthly_cashflow self)).
Proof.
  intros Hwf. rewrite calculate_monthly_cashflow_closed_form, map_map. cbn [fst].
  destruct (ledger_months (csv_file self)) as (_ & ND & M).
  set (months := sorted_unique period_compare (months_of (csv_file self))) in *.
  assert (R : forall p, In p months -> 0 <= fst p < 10000 /\ 0 <= snd p < 100).
  { intros p Hp. apply M in Hp as (r & Hr & <-).
    rewrite Forall_forall in Hwf. specialize (Hwf r Hr). cbn. lia. }
  clearbody months. clear M.
  induction ND as [|p months Hnot ND IH]; [constructor|].
  cbn [map]. constructor.
  - intros Hin. apply in_map_iff in Hin as (q & E & Hq).
    destruct (R p (or_introl eq_refl)), (R q (or_intror Hq)).
    apply period_str_inj in E; try assumption. now subst q.
  - apply IH. intros q Hq. apply R. now right.
Qed.

Lemma monthly_cashflow_keys_distinct_witness :
  NoDup (map fst (calculate_monthly_cashflow Samples.scenario_dashboard)).
Proof.
  apply monthly_cashflow_keys_distinct.
  repeat constructor; cbn; lia.
Defined.

End ReportKeys.

(* ================================================================= *)
(** ** Goal progress *)

Section GoalProgress.
Import finance_dashboard.
Local Open Scope R_scope.

Lemma progress_facts (current target : R) :
  0 < target ->
  (goals.progress current target = 100 <-> target <= current)
  /\ (current < target -> goals.progress current target = current / target * 100)
  /\ (current < 0 -> goals.progress current target < 0)
  /\ (0 <= current -> 0 <= goals.progress current target).
Proof.
  intros Ht. unfold goals.progress, goals.min100.
  destruct (Rlt_dec 0 target) as [_|N]; [|lra].
  assert (E : current / target * 100 - 100 = (current - target) * (100 / target))
    by (field; lra).
  assert (P : 0 < 100 / target) by (apply Rdiv_lt_0_compat; lra).
  assert (Q : current / target * 100 = current * (100 / target)) by (field; lra).
  destruct (Rlt_dec (current / target * 100) 100) as [L|L].
  - assert (current < target) by nra.
    repeat split; intros; try lra; try nra.
  - assert (target <= current) by nra.
    repeat split; intros; try lra; try nra.
Qed.

(** X6. For a positive target the progress of each goal is 100 exactly when the
    current value has reached the target and is the plain ratio below it;
    it is not clamped from below: a negative current value gives a negative
    progress. A target that is not positive gives 0. *)
Theorem goal_progress_range (now : Timestamp) (portfolio_data : Portfolio)
    (cashflow_data : list (string * Cashflow)) (df : DataFrame)
    (financial_goals : FinancialGoals) :
  Forall (fun kv =>
            let g := snd kv in
            (0 < target g ->
             (progress_percentage g = 100 <-> target g <= current g)
             /\ (current g < target g -> progress_percentage g = current g / target g * 100)
             /\ (current g < 0 -> progress_percentage g < 0)
             /\ (0 <= current g -> 0 <= progress_percentage g))
            /\ (target g <= 0 -> progress_percentage g = 0))
         (goals.track_financial_goals now portfolio_data cashflow_data df financial_goals).
Proof.
  unfold goals.track_financial_goals.
  repeat (apply Forall_cons;
          [cbn [snd progress_percentage target current]; split;
           [apply progress_facts
           | intros Hle; unfold goals.progress;
             destruct (Rlt_dec 0 _) as [Hpos|_]; [lra | reflexivity]]
          |]).
  apply Forall_nil.
Qed.

(** X7. With the report of the ledger as cash flow data, the current value of
    the monthly savings goal is the mean net flow: times the number of
    months of the ledger it is the Income total minus the Expense total. It
    is 0 for an empty ledger. *)
Theorem monthly_savings_is_mean_net_flow (self : PersonalFinanceDashboard)
    (now : Timestamp) (portfolio_data : Portfolio) (df : DataFrame) :
  let report := calculate_monthly_cashflow self in
  let progress := goals.track_financial_goals now portfolio_data report df
                    (financial_goals self) in
  exists g, Spec.get "monthly_savings_goal" progress = Some g
    /\ target g = monthly_savings_goal (financial_goals self)
    /\ current g * INR (List.length report)
       = Series.sum (map Amount
           (filter (fun r => String.eqb (Type_ r) "Income") (csv_file self)))
         - Series.sum (map Amount
           (filter (fun r => String.eqb (Type_ r) "Expense") (csv_file self)))
    /\ (csv_file self = [] -> current g = 0).
Proof.
  cbv zeta. unfold goals.track_financial_goals.
  eexists. split; [reflexivity|]. cbn [target current]. split; [reflexivity|].
  pose proof (net_flows_total self) as T.
  destruct (calculate_monthly_cashflow self) as [|kv report] eqn:E.
  - split; [|reflexivity]. cbn [map Series.py_sum] in T. cbn [List.length INR]. lra.
  - split.
    + cbn [map] in *. rewrite <- T.
      assert (N : INR (List.length (kv :: report)) <> 0).
      { apply not_0_INR. discriminate. }
      cbn [List.length] in *. rewrite length_map. field. exact N.
    + intros Hnil. unfold calculate_monthly_cashflow, read_transactions, empty in E.
      cbn [rows] in E. rewrite Hnil in E. discriminate.
Qed.

End GoalProgress.

(* ================================================================= *)
(** ** The monolith and the refactored modules *)

Section Monolith.
Import finance_dashboard.
Local Open Scope R_scope.

Lemma lol_goals_eq (self : PersonalFinanceDashboard) (now : Timestamp) (month_col : option (list Period)) :
  lol_view.track_financial_goals self now
  = goals.track_financial_goals now (track_investment_portfolio self now)
      (calculate_monthly_cashflow self) (mkDataFrame (csv_file self) month_col)
      (financial_goals self).
Proof.
  unfold lol_view.track_financial_goals, goals.track_financial_goals, goals.progress.
  cbn [rows read_transactions].
  assert (V : lol.current_value (lol.track_investment_portfolio self now)
              = current_value (track_investment_portfolio self now)).
  { unfold lol.track_investment_portfolio, track_investment_portfolio, read_transactions, empty.
    cbn [rows]. destruct (csv_file self) eqn:E.
    - cbn [lol.current_value current_value]. unfold get_investment_value, read_transactions.
      cbn [rows]. now rewrite E.
    - cbn [lol.current_value current_value]. apply lol_get_investment_value_eq. }
  rewrite V. reflexivity.
Qed.

(** X8. The goal tracker of lol.py returns what goals.py returns on the
    portfolio summary, the cash flow report and the transactions of the
    same dashboard. *)
Theorem lol_goals_match (self : PersonalFinanceDashboard) (now : Timestamp) :
  lol_view.track_financial_goals self now
  = goals.track_financial_goals now (track_investment_portfolio self now)
      (calculate_monthly_cashflow self) (read_transactions self) (financial_goals self).
Proof. apply lol_goals_eq. Qed.

Lemma lol_net_worth_fields (self : PersonalFinanceDashboard) (now : Timestamp) :
  let old := lol.calculate_net_worth self now in
  let new := fst (analytics.calculate_net_worth (read_transactions self)
                    (starting_capital self) (get_investment_value self now)) in
  lol.current_cash old = analytics.current_cash new
  /\ lol.investment_value old = analytics.investment_value new
  /\ lol.current_net_worth old = analytics.current_net_worth new
  /\ lol.starting_capital old
     = (if empty (read_transactions self) then None
        else Some (analytics.starting_capital new))
  /\ lol.monthly_cash_balance old
     = (if empty (read_transactions self) then None
        else Some (analytics.monthly_cash_balance new)).
Proof.
  cbv zeta. unfold lol.calculate_net_worth, analytics.calculate_net_worth.
  destruct (empty (read_transactions self)) eqn:E.
  - repeat split.
  - cbn [fst lol.current_cash lol.investment_value lol.current_net_worth
         lol.starting_capital lol.monthly_cash_balance
         analytics.current_cash analytics.investment_value analytics.current_net_worth
         analytics.starting_capital analytics.monthly_cash_balance].
    rewrite lol_get_investment_value_eq. repeat split.
Qed.

(** X9. The net worth of lol.py carries the same cash, investment value and net
    worth as analytics.py fed with the valuation of the ledger; its keys
    [starting_capital] and [monthly_cash_balance] exist exactly when the
    ledger is not empty, with the values analytics.py gives them. *)
Theorem lol_net_worth_matches (self : PersonalFinanceDashboard) (now : Timestamp) :
  let old := lol.calculate_net_worth self now in
  let new := fst (analytics.calculate_net_worth (read_transactions self)
                    (starting_capital self) (get_investment_value self now)) in
  lol.current_cash old = analytics.current_cash new
  /\ lol.investment_value old = analytics.investment_value new
  /\ lol.current_net_worth old = analytics.current_net_worth new
  /\ lol.starting_capital old
     = (if empty (read_transactions self) then None
        else Some (analytics.starting_capital new))
  /\ lol.monthly_cash_balance old
     = (if empty (read_transactions self) then None
        else Some (analytics.monthly_cash_balance new)).
Proof. exact (lol_net_worth_fields self now). Qed.

Lemma lol_portfolio_fields (self : PersonalFinanceDashboard) (now : Timestamp) :
  let old := lol.track_investment_portfolio self now in
  let new := track_investment_portfolio self now in
  lol.total_invested old = total_invested new
  /\ lol.current_value old = current_value new
  /\ lol.returns old = returns new
  /\ lol.return_percentage old = return_percentage new
  /\ lol.investment_breakdown old
     = (if empty (read_transactions self) then None else Some (investment_breakdown new)).
Proof.
  cbv zeta. unfold lol.track_investment_portfolio, track_investment_portfolio.
  destruct (empty (read_transactions self)) eqn:E.
  - unfold empty, read_transactions in E. cbn [rows] in E.
    destruct (csv_file self) as [|r l] eqn:C; [|discriminate].
    unfold get_investment_value, read_transactions, type_total, amounts_of_type.
    cbn [rows]. rewrite C.
    cbn [filter map Series.sum lol.total_invested lol.current_value lol.returns
         lol.return_percentage lol.investment_breakdown
         total_invested current_value returns return_percentage].
    destruct (Rlt_dec 0 0) as [N|_]; [lra|].
    repeat split. lra.
  - cbn [lol.total_invested lol.current_value lol.returns
         lol.return_percentage lol.investment_breakdown
         total_invested current_value returns return_percentage investment_breakdown].
    rewrite lol_get_investment_value_eq. repeat split.
Qed.


(** X10. The portfolio summary of lol.py carries the same figures as the one of
    finance_dashboard.py; its key [investment_breakdown] exists exactly when
    the ledger is not empty. *)
Theorem lol_portfolio_matches (self : PersonalFinanceDashboard) (now : Timestamp) :
  let old := lol.track_investment_portfolio self now in
  let new := track_investment_portfolio self now in
  lol.total_invested old = total_invested new
  /\ lol.current_value old = current_value new
  /\ lol.returns old = returns new
  /\ lol.return_percentage old = return_percentage new
  /\ lol.investment_breakdown old
     = (if empty (read_transactions self) then None else Some (investment_breakdown new)).
Proof. exact (lol_portfolio_fields self now). Qed.

Lemma figure_on_ledger (self : PersonalFinanceDashboard) (now : Timestamp) :
  empty (read_transactions self) = false ->
  lol_view.display_dashboard self now = Some (dashboard_view.display_dashboard self now).
Proof.
  intros E.
  unfold lol_view.display_dashboard, lol_view.create_visualizations,
    dashboard_view.display_dashboard, visual.create_visualizations.
  destruct (lol_portfolio_fields self now) as (_ & _ & _ & _ & B).
  destruct (lol_net_worth_fields self now) as (_ & _ & _ & _ & M).
  cbv zeta in B, M. rewrite E in B, M. rewrite B, M.
  rewrite (lol_goals_eq self now (Some (months_of (csv_file self)))).
  unfold analytics.calculate_net_worth. rewrite E.
  reflexivity.
Qed.

(** X11. On a non-empty ledger the dashboard of lol.py draws the very figure of
    the refactored dashboard. On an empty ledger it raises, for want of the
    key [investment_breakdown], where the refactored one draws a figure
    without cash flow bars and cash trend and with the "No Investment Data"
    panel. *)
Theorem lol_dashboard_raises_on_empty_ledger (self : PersonalFinanceDashboard)
    (now : Timestamp) :
  (csv_file self <> [] ->
   lol_view.display_dashboard self now = Some (dashboard_view.display_dashboard self now))
  /\ (csv_file self = [] ->
      lol_view.display_dashboard self now = None
      /\ visual.ax1 (dashboard_view.display_dashboard self now) = None
      /\ visual.ax2 (dashboard_view.display_dashboard self now) = None
      /\ visual.ax4 (dashboard_view.display_dashboard self now) = visual.no_investment_data).
Proof.
  split.
  - intros Hne. apply figure_on_ledger.
    unfold empty, read_transactions. cbn [rows]. now destruct (csv_file self).
  - intros Hnil.
    unfold lol_view.display_dashboard, lol_view.create_visualizations,
      dashboard_view.display_dashboard, visual.create_visualizations,
      lol.track_investment_portfolio, track_investment_portfolio,
      calculate_monthly_cashflow, analytics.calculate_net_worth, read_transactions, empty.
    cbn [rows]. rewrite Hnil. repeat split.
Qed.

Lemma lol_dashboard_raises_on_empty_ledger_witness :
  lol_view.display_dashboard Samples.scenario_dashboard Samples.mid_2024
  = Some (dashboard_view.display_dashboard Samples.scenario_dashboard Samples.mid_2024)
  /\ lol_view.display_dashboard
       (mkDashboard [] 2000000 "INR" (mkFinancialGoals 500000 50000 1200000))
       Samples.mid_2024 = None.
Proof.
  split.
  - apply (lol_dashboard_raises_on_empty_ledger Samples.scenario_dashboard Samples.mid_2024).
    discriminate.
  - apply (lol_dashboard_raises_on_empty_ledger
             (mkDashboard [] 2000000 "INR" (mkFinancialGoals 500000 50000 1200000))
             Samples.mid_2024).
    reflexivity.
Defined.

End Monolith.

(* ================================================================= *)
(** ** Bounds of the valuation *)

Section ValuationBounds.
Import finance_dashboard.
Local Open Scope R_scope.

Lemma growth_at_least_1 (z : Z) : (0 <= z)%Z -> 1 <= powerRZ (1 + daily_return_rate) z.
Proof.
  intros Hz. rewrite growth_whole_days by assumption.
  apply pow_R1_Rle. pose proof daily_factor_gt_1. lra.
Qed.

Lemma growth_monotone (z z' : Z) :
  (z <= z')%Z ->
  powerRZ (1 + daily_return_rate) z <= powerRZ (1 + daily_return_rate) z'.
Proof.
  intros Hz. rewrite !powerRZ_Rpower by apply daily_factor_pos.
  apply Rle_Rpower; [pose proof daily_factor_gt_1; lra | now apply IZR_le].
Qed.

Lemma values_dominate (f g : Row -> option R) (l : list Row) :
  Forall (fun r => match f r, g r with
                   | Some x, Some y => x <= y
                   | None, None => True
                   | _, _ => False
                   end) l ->
  Series.sum (map f l) <= Series.sum (map g l).
Proof.
  induction 1 as [|r l Hr _ IH]; cbn [map Series.sum]; [lra|].
  destruct (f r), (g r); try contradiction; lra.
Qed.

Lemma Forall_filter {A : Type} (P : A -> Prop) (f : A -> bool) (l : list A) :
  Forall P l -> Forall P (filter f l).
Proof.
  intros H. apply Forall_forall. intros x Hx. apply filter_In in Hx as [Hx _].
  rewrite Forall_forall in H. now apply H.
Qed.

(** X12. When the amounts are not negative and no transaction is dated after
    the as-of date, the valuation is at least the cost of the fund
    purchases: the model never reports a loss on them. *)
Theorem valuation_at_least_cost (self : PersonalFinanceDashboard) (now : Timestamp) :
  Forall non_negative_amount (csv_file self) ->
  Forall (fun r => (total_seconds (Date r) <= total_seconds now)%Z) (csv_file self) ->
  Series.sum (map Amount (filter is_mutual_fund_expense (csv_file self)))
  <= get_investment_value self now.
Proof.
  intros Hpos Hpast. rewrite get_investment_value_sum.
  apply values_dominate. apply Forall_filter.
  rewrite Forall_forall in *. intros r Hr.
  unfold row_current_value. destruct (Amount r) as [a|] eqn:Ha; [|exact I].
  specialize (Hpos r Hr a Ha). specialize (Hpast r Hr).
  pose proof (growth_at_least_1 (timedelta_days_past now (Date r) Hpast)) as G.
  fold (days_held now r) in G. nra.
Qed.

Lemma valuation_at_least_cost_witness :
  Series.sum (map Amount (filter is_mutual_fund_expense Samples.scenario))
  <= get_investment_value Samples.scenario_dashboard Samples.mid_2024.
Proof.
  apply (valuation_at_least_cost Samples.scenario_dashboard Samples.mid_2024).
  - repeat (apply Forall_cons; [intros a Ha; injection Ha as <-; lra|]). apply Forall_nil.
  - repeat constructor; discriminate.
Defined.

(** X13. When the amounts are not negative, the valuation does not decrease as
    the as-of date moves on. *)
Theorem valuation_grows_with_time (self : PersonalFinanceDashboard)
    (now later : Timestamp) :
  Forall non_negative_amount (csv_file self) ->
  (total_seconds now <= total_seconds later)%Z ->
  get_investment_value self now <= get_investment_value self later.
Proof.
  intros Hpos Hlater. rewrite !get_investment_value_sum.
  apply values_dominate. apply Forall_filter.
  rewrite Forall_forall in *. intros r Hr.
  unfold row_current_value. destruct (Amount r) as [a|] eqn:Ha; [|exact I].
  specialize (Hpos r Hr a Ha).
  assert (D : (days_held now r <= days_held later r)%Z).
  { unfold days_held, timedelta_days. apply Z.div_le_mono; lia. }
  pose proof (growth_monotone D).
  pose proof (powerRZ_lt (1 + daily_return_rate) (days_held now r) daily_factor_pos).
  nra.
Qed.

Lemma valuation_grows_with_time_witness :
  get_investment_value Samples.scenario_dashboard Samples.early_2024
  <= get_investment_value Samples.scenario_dashboard Samples.mid_2024.
Proof.
  apply (valuation_grows_with_time Samples.scenario_dashboard).
  - repeat (apply Forall_cons; [intros a Ha; injection Ha as <-; lra|]). apply Forall_nil.
  - discriminate.
Defined.

End ValuationBounds.

(* ================================================================= *)
(** ** One more transaction *)

Section OneMoreTransaction.
Import finance_dashboard.
Local Open Scope R_scope.

Lemma filter_app' {A : Type} (f : A -> bool) (l l' : list A) :
  filter f (l ++ l') = filter f l ++ filter f l'.
Proof.
  induction l as [|a l IH]; [reflexivity|]. cbn [app filter].
  destruct (f a); [cbn [app]|]; now rewrite IH.
Qed.

Lemma type_total_app (kind : string) (l : list Row) (r : Row) :
  type_total kind (l ++ [r])
  = type_total kind l
    + (if String.eqb (Type_ r) kind
       then match Amount r with Some a => a | None => 0 end else 0).
Proof.
  unfold type_total, amounts_of_type. rewrite filter_app', map_app, sum_app.
  cbn [filter]. destruct (String.eqb (Type_ r) kind); cbn [map Series.sum];
    [destruct (Amount r)|]; lra.
Qed.

Lemma current_cash_of_ledger (df : DataFrame) (starting_capital investment_value : R) :
  analytics.current_cash
    (fst (analytics.calculate_net_worth df starting_capital investment_value))
  = starting_capital + type_total "Income" (rows df) - type_total "Expense" (rows df).
Proof.
  unfold analytics.calculate_net_worth, empty.
  destruct (rows df) as [|r l]; cbn [fst analytics.current_cash]; [|reflexivity].
  unfold type_total, amounts_of_type. cbn [filter map Series.sum]. lra.
Qed.

(** X14. One more transaction at the end of the ledger moves the cash balance by
    its amount: up for the type "Income", down for "Expense". A transaction
    of any other type, or without an amount, leaves the cash as it was. *)
Theorem one_more_transaction_moves_cash (l : list Row) (r : Row)
    (col col' : option (list Period)) (starting_capital investment_value : R) :
  let before := fst (analytics.calculate_net_worth (mkDataFrame l col)
                       starting_capital investment_value) in
  let after := fst (analytics.calculate_net_worth (mkDataFrame (l ++ [r]) col')
                      starting_capital investment_value) in
  analytics.current_cash after
  = analytics.current_cash before
    + match Amount r with
      | Some a =>
          if String.eqb (Type_ r) "Income" then a
          else if String.eqb (Type_ r) "Expense" then - a
          else 0
      | None => 0
      end.
Proof.
  cbv zeta. rewrite !current_cash_of_ledger. cbn [rows].
  rewrite !type_total_app.
  destruct (String.eqb_spec (Type_ r) "Income") as [E|N].
  - rewrite E. cbn [String.eqb Ascii.eqb Bool.eqb]. destruct (Amount r); lra.
  - destruct (String.eqb (Type_ r) "Expense"); destruct (Amount r); lra.
Qed.

(** The net worth the dashboard shows is its cash plus the valuation of the
    ledger, empty or not. *)
Lemma view_net_worth_sum (self : PersonalFinanceDashboard) (now : Timestamp) :
  analytics.current_net_worth (dashboard_view.view_net_worth self now)
  = analytics.current_cash (dashboard_view.view_net_worth self now)
    + get_investment_value self now.
Proof.
  unfold dashboard_view.view_net_worth, analytics.calculate_net_worth, read_transactions,
    empty. cbn [rows].
  destruct (csv_file self) as [|r l] eqn:E;
    cbn [fst analytics.current_net_worth analytics.current_cash]; [|reflexivity].
  unfold get_investment_value, read_transactions. cbn [rows]. rewrite E.
  cbn [filter]. lra.
Qed.

(** X15. A fund purchase entered on the day of the valuation is worth its cost:
    the net worth shown by the dashboard is the same with and without it,
    the cash going down and the investment value going up by the amount. *)
Theorem fund_purchase_keeps_net_worth (l : list Row) (r : Row) (a : R)
    (capital : R) (currency : string) (targets : FinancialGoals) (now : Timestamp) :
  is_mutual_fund_expense r = true ->
  Amount r = Some a ->
  (0 <= total_seconds now - total_seconds (Date r) < 86400)%Z ->
  let before := dashboard_view.view_net_worth
                  (mkDashboard l capital currency targets) now in
  let after := dashboard_view.view_net_worth
                 (mkDashboard (l ++ [r]) capital currency targets) now in
  analytics.current_cash after = analytics.current_cash before - a
  /\ get_investment_value (mkDashboard (l ++ [r]) capital currency targets) now
     = get_investment_value (mkDashboard l capital currency targets) now + a
  /\ analytics.current_net_worth after = analytics.current_net_worth before.
Proof.
  intros Hq Ha Hday before after.
  assert (T : Type_ r = "Expense"%string).
  { unfold is_mutual_fund_expense in Hq. apply andb_true_iff in Hq as [_ Hq].
    now apply String.eqb_eq. }
  assert (D : days_held now r = 0%Z).
  { unfold days_held, timedelta_days. apply Z.div_small. lia. }
  assert (V : get_investment_value (mkDashboard (l ++ [r]) capital currency targets) now
              = get_investment_value (mkDashboard l capital currency targets) now + a).
  { rewrite !get_investment_value_sum. cbn [csv_file].
    rewrite filter_app', map_app, sum_app. cbn [filter]. rewrite Hq.
    cbn [map Series.sum]. unfold row_current_value at 2. rewrite Ha, D.
    cbn [powerRZ]. lra. }
  assert (C : analytics.current_cash after = analytics.current_cash before - a).
  { subst before after. unfold dashboard_view.view_net_worth, read_transactions.
    rewrite !current_cash_of_ledger. cbn [rows csv_file starting_capital].
    rewrite !type_total_app, T, Ha. cbn [String.eqb Ascii.eqb Bool.eqb]. lra. }
  split; [exact C|]. split; [exact V|].
  subst before after. rewrite !view_net_worth_sum, C, V. lra.
Qed.

Lemma fund_purchase_keeps_net_worth_witness :
  let r := mkRow (mkTimestamp 2024 6 30 0) "Mutual Fund - Debt" "Expense" (Some 1500) in
  get_investment_value
    (mkDashboard (Samples.scenario ++ [r]) 2000000 "INR" (mkFinancialGoals 500000 50000 1200000))
    Samples.mid_2024
  = get_investment_value
      (mkDashboard Samples.scenario 2000000 "INR" (mkFinancialGoals 500000 50000 1200000))
      Samples.mid_2024 + 1500.
Proof.
  intro r.
  apply (@fund_purchase_keeps_net_worth Samples.scenario r 1500 2000000 "INR"
           (mkFinancialGoals 500000 50000 1200000) Samples.mid_2024 eq_refl eq_refl).
  split; [discriminate | reflexivity].
Defined.

End OneMoreTransaction.

(* ================================================================= *)
(** ** Order and total of the investment breakdown *)

Section BreakdownTotal.
Import finance_dashboard.
Local Open Scope R_scope.

Lemma ascii_compare_lt_trans (a b c : ascii) :
  Ascii.compare a b = Lt -> Ascii.compare b c = Lt -> Ascii.compare a c = Lt.
Proof.
  unfold Ascii.compare. rewrite !N.compare_lt_iff. apply N.lt_trans.
Qed.

Lemma string_compare_lt_trans (a b c : string) :
  String.compare a b = Lt -> String.compare b c = Lt -> String.compare a c = Lt.
Proof.
  revert b c. induction a as [|x a IH]; intros [|y b] [|z c]; cbn [String.compare];
    try discriminate; try reflexivity.
  destruct (Ascii.compare x y) eqn:Exy; try discriminate.
  - apply Ascii.compare_eq_iff in Exy; subst y.
    destruct (Ascii.compare x z); try discriminate; [apply IH | reflexivity].
  - intros _. destruct (Ascii.compare y z) eqn:Eyz; try discriminate.
    + apply Ascii.compare_eq_iff in Eyz; subst z. now rewrite Exy.
    + intros _. now rewrite (ascii_compare_lt_trans _ _ _ Exy Eyz).
Qed.

Lemma string_compare_gt (a b : string) :
  String.compare a b = Gt -> String.compare b a = Lt.
Proof. intros H. rewrite String.compare_antisym, H. reflexivity. Qed.

Lemma sorted_strings_distinct (l : list string) :
  StronglySorted (fun a b => String.compare a b = Lt) l -> NoDup l.
Proof.
  induction 1 as [|s l _ IH Hall]; constructor; [|exact IH].
  intros Hin. rewrite Forall_forall in Hall. specialize (Hall s Hin).
  rewrite string_compare_refl in Hall. discriminate.
Qed.

(** X16. The keys of the breakdown come out in ascending order of their text,
    each once. The amounts of the breakdown add up to [total_invested] plus
    the amounts of the rows of investment categories that are not of type
    "Expense". *)
Theorem breakdown_order_and_total (self : PersonalFinanceDashboard) (now : Timestamp) :
  let p := track_investment_portfolio self now in
  StronglySorted (fun a b => String.compare a b = Lt) (map fst (investment_breakdown p))
  /\ NoDup (map fst (investment_breakdown p))
  /\ Series.py_sum (map snd (investment_breakdown p))
     = total_invested p
       + Series.sum (map Amount
           (filter (fun r => is_investment_category r && negb (String.eqb (Type_ r) "Expense"))
                   (csv_file self))).
Proof.
  cbv zeta. unfold track_investment_portfolio, read_transactions.
  cbn [investment_breakdown total_invested rows].
  set (matched := filter is_investment_category (csv_file self)).
  unfold groupby. rewrite !map_map. cbn [fst snd]. rewrite map_id.
  assert (S : StronglySorted (fun a b => String.compare a b = Lt)
                (sorted_unique String.compare (map Category matched))).
  { apply (@sorted_unique_sorted _ String.compare string_compare_gt string_compare_lt_trans). }
  split; [exact S|]. split; [now apply sorted_strings_distinct|].
  assert (G : forall k,
            Series.sum (map Amount (group String.compare Category k matched))
            = Series.sum (map Amount
                (filter (fun r => String.eqb (Category r) k && true) matched))).
  { intros k. unfold group. do 2 f_equal. apply filter_ext. intros r.
    now rewrite same_key_string, andb_true_r. }
  rewrite (map_ext _ _ G).
  rewrite (@sum_by_key _ Category String.eqb String.eqb_eq (fun _ => true) _ matched
             (sorted_strings_distinct S)).
  - unfold matched. rewrite !filter_filter.
    rewrite (filter_ext _ is_investment_category) by (intros r; apply andb_true_r).
    rewrite (sum_filter_split is_investment_category
               (fun r => String.eqb (Type_ r) "Expense")).
    unfold type_total, amounts_of_type. now rewrite filter_filter.
  - intros r Hr _.
    apply (proj2 (@In_sorted_unique _ _ String.compare_eq_iff _ _)).
    now apply in_map.
Qed.

End BreakdownTotal.

(* ================================================================= *)
(** ** Entering a transaction *)

Section EnteringTransactions.
Import transaction_manager.
Variable float : string -> option PyFloat.

Lemma ask_type_result (inputs : list string) (t : string) (printed : list Printed)
    (rest : list string) :
  ask_type inputs = Some (t, printed, rest) ->
  (t = "Income"%string \/ t = "Expense"%string)
  /\ exists consumed, inputs = consumed ++ rest
       /\ List.length consumed = S (List.length printed).
Proof.
  revert t printed rest. induction inputs as [|line inputs IH]; intros t printed rest H;
    [discriminate|].
  cbn [ask_type] in H.
  destruct (String.eqb (Str.title (Str.strip line)) "Income"
            || String.eqb (Str.title (Str.strip line)) "Expense") eqn:V.
  - injection H as <- <- <-. split.
    + apply orb_true_iff in V as [V|V]; apply String.eqb_eq in V; auto.
    + exists [line]. split; reflexivity.
  - destruct (ask_type inputs) as [[[t' printed'] rest']|] eqn:A; [|discriminate].
    injection H as <- <- <-.
    destruct (IH _ _ _ eq_refl) as (Ht & consumed & E & L).
    split; [exact Ht|]. exists (line :: consumed). split.
    + cbn [app]. now rewrite <- E.
    + cbn [List.length]. now rewrite L.
Qed.

Lemma ask_amount_result (inputs : list string) (a : PyFloat) (printed : list Printed)
    (rest : list string) :
  ask_amount float inputs = Some (a, printed, rest) ->
  positive a = true
  /\ exists consumed, inputs = consumed ++ rest
       /\ List.length consumed = S (List.length printed).
Proof.
  revert a printed rest. induction inputs as [|line inputs IH]; intros a printed rest H;
    [discriminate|].
  cbn [ask_amount] in H.
  assert (Again : forall message,
            match ask_amount float inputs with
            | Some (a0, printed0, rest') => Some (a0, message :: printed0, rest')
            | None => None
            end = Some (a, printed, rest) ->
            positive a = true
            /\ exists consumed, line :: inputs = consumed ++ rest
                 /\ List.length consumed = S (List.length printed)).
  { intros message H'.
    destruct (ask_amount float inputs) as [[[a' printed'] rest']|] eqn:A; [|discriminate].
    injection H' as <- <- <-.
    destruct (IH _ _ _ eq_refl) as (Ha & consumed & E & L).
    split; [exact Ha|]. exists (line :: consumed). split.
    - cbn [app]. now rewrite <- E.
    - cbn [List.length]. now rewrite L. }
  destruct (float (Str.strip line)) as [amount|]; [|now apply (Again enter_a_valid_number)].
  destruct (positive amount) eqn:P; [|now apply (Again amount_must_be_positive)].
  injection H as <- <- <-. split; [exact P|].
  exists [line]. split; reflexivity.
Qed.

(** X17. Whenever the operation completes on a writable file, the file is the
    old one with one record appended: dated with the current date, with the
    stripped first line as category, a type that is "Income" or "Expense"
    and a positive amount. On a file that cannot be written the file is
    left as it was. Either way at least three lines of input are consumed. *)
Theorem add_new_transaction_appends_valid_record (csv_file : list CsvRecord)
    (writable : bool) (current_date : string) (inputs : list string)
    (csv_file' : list CsvRecord) (printed : list Printed) (rest : list string) :
  add_new_transaction float csv_file writable current_date inputs
  = Some (csv_file', printed, rest) ->
  (if writable then
     exists category_line record,
       hd_error inputs = Some category_line
       /\ csv_file' = csv_file ++ [record]
       /\ rec_date record = current_date
       /\ rec_category record = Str.strip category_line
       /\ (rec_type record = "Income"%string \/ rec_type record = "Expense"%string)
       /\ positive (rec_amount record) = true
       /\ last printed error_adding = added_successfully
   else csv_file' = csv_file /\ last printed added_successfully = error_adding)
  /\ exists consumed, inputs = consumed ++ rest /\ (3 <= List.length consumed)%nat.
Proof.
  unfold add_new_transaction. destruct inputs as [|line inputs]; [discriminate|].
  destruct (ask_type inputs) as [[[t printed_t] inputs_t]|] eqn:T; [|discriminate].
  destruct (ask_amount float inputs_t) as [[[a printed_a] inputs_a]|] eqn:A; [|discriminate].
  destruct (ask_type_result _ T) as (Ht & ct & Et & Lt).
  destruct (ask_amount_result _ A) as (Ha & ca & Ea & La).
  assert (C : exists consumed,
            line :: inputs = consumed ++ inputs_a /\ (3 <= List.length consumed)%nat).
  { exists (line :: ct ++ ca). split.
    - cbn [app]. now rewrite <- app_assoc, <- Ea, <- Et.
    - cbn [List.length]. rewrite length_app. lia. }
  destruct writable; intros H; injection H as <- <- <-; (split; [|exact C]).
  - exists line, (mkCsvRecord current_date (Str.strip line) t a).
    repeat split; try assumption.
    rewrite app_comm_cons. apply last_last.
  - split; [reflexivity|]. rewrite app_comm_cons. apply last_last.
Qed.

Lemma ask_type_retries (bad : list string) (good : string) (rest : list string) :
  Forall (fun line => valid_type line = false) bad ->
  valid_type good = true ->
  ask_type (bad ++ good :: rest)
  = Some (Str.title (Str.strip good),
          repeat enter_income_or_expense (List.length bad), rest).
Proof.
  intros Hbad Hgood. induction Hbad as [|line bad Hline _ IH]; cbn [app ask_type].
  - unfold valid_type in Hgood. now rewrite Hgood.
  - unfold valid_type in Hline. now rewrite Hline, IH.
Qed.

Lemma ask_amount_retries (bad : list string) (good : string) (a : PyFloat)
    (rest : list string) :
  Forall (fun line => valid_amount float line = false) bad ->
  float (Str.strip good) = Some a ->
  positive a = true ->
  ask_amount float (bad ++ good :: rest) = Some (a, map (amount_complaint float) bad, rest).
Proof.
  intros Hbad Hgood Hpos. induction Hbad as [|line bad Hline _ IH]; cbn [app ask_amount map].
  - now rewrite Hgood, Hpos.
  - rewrite IH. unfold valid_amount in Hline. unfold amount_complaint.
    destruct (float (Str.strip line)) as [x|]; [|reflexivity]. now rewrite Hline.
Qed.

Lemma asks_again_outcome (csv_file : list CsvRecord) (current_date : string)
    (category : string) (bad_types : list string) (type_line : string)
    (bad_amounts : list string) (amount_line : string) (amount : PyFloat)
    (rest : list string) :
  Forall (fun line => valid_type line = false) bad_types ->
  valid_type type_line = true ->
  Forall (fun line => valid_amount float line = false) bad_amounts ->
  float (Str.strip amount_line) = Some amount ->
  positive amount = true ->
  add_new_transaction float csv_file true current_date
    (category :: bad_types ++ type_line :: bad_amounts ++ amount_line :: rest)
  = Some (csv_file ++ [mkCsvRecord current_date (Str.strip category)
                         (Str.title (Str.strip type_line)) amount],
          (adding_for current_date
             :: repeat enter_income_or_expense (List.length bad_types)
             ++ map (amount_complaint float) bad_amounts) ++ [added_successfully],
          rest).
Proof.
  intros Hbt Hgt Hba Hga Hpos. unfold add_new_transaction.
  rewrite (ask_type_retries _ _ Hbt Hgt).
  now rewrite (ask_amount_retries _ _ Hba Hga Hpos).
Qed.

(** X18. The operation asks again until it gets a valid type and then a valid
    amount: on a category line, any number of invalid type lines, a valid
    type line, any number of invalid amount lines and a valid amount line it
    appends the record of the valid entries, complains once per invalid
    line and leaves the remaining input untouched. *)
Theorem add_new_transaction_asks_again (csv_file : list CsvRecord) (current_date : string)
    (category : string) (bad_types : list string) (type_line : string)
    (bad_amounts : list string) (amount_line : string) (amount : PyFloat)
    (rest : list string) :
  Forall (fun line => valid_type line = false) bad_types ->
  valid_type type_line = true ->
  Forall (fun line => valid_amount float line = false) bad_amounts ->
  float (Str.strip amount_line) = Some amount ->
  positive amount = true ->
  add_new_transaction float csv_file true current_date
    (category :: bad_types ++ type_line :: bad_amounts ++ amount_line :: rest)
  = Some (csv_file ++ [mkCsvRecord current_date (Str.strip category)
                         (Str.title (Str.strip type_line)) amount],
          (adding_for current_date
             :: repeat enter_income_or_expense (List.length bad_types)
             ++ map (amount_complaint float) bad_amounts) ++ [added_successfully],
          rest).
Proof.
  intros Hbt Hgt Hba Hga Hpos.
  now apply asks_again_outcome.
Qed.

End EnteringTransactions.

Section TypeEntry.
Import transaction_manager.

Lemma title_from_lower (s : string) (prev_cased : bool) :
  Str.title_from prev_cased (Text.lower s) = Str.title_from prev_cased s.
Proof.
  revert prev_cased. induction s as [|c s IH]; intros prev_cased; [reflexivity|].
  cbn [Text.lower Str.title_from].
  destruct c as [[] [] [] [] [] [] [] []], prev_cased; cbn; rewrite ?IH; reflexivity.
Qed.

Lemma lower_title_from (s : string) (prev_cased : bool) :
  Text.lower (Str.title_from prev_cased s) = Text.lower s.
Proof.
  revert prev_cased. induction s as [|c s IH]; intros prev_cased; [reflexivity|].
  cbn [Str.title_from].
  destruct c as [[] [] [] [] [] [] [] []], prev_cased;
    repeat match goal with
      | |- context [Str.is_lower ?c] =>
          let v := eval vm_compute in (Str.is_lower c) in change (Str.is_lower c) with v
      | |- context [Str.is_upper ?c] =>
          let v := eval vm_compute in (Str.is_upper c) in change (Str.is_upper c) with v
      end;
    cbn [Text.lower]; rewrite ?IH; reflexivity.
Qed.

(** X19. The type is accepted whatever its letter case and the blanks around
    it: a line is a valid type exactly when, stripped and lowered, it reads
    "income" or "expense"; it is then recorded as "Income" or "Expense". *)
Theorem type_entry_ignores_case (line : string) (rest : list string) :
  (Text.lower (Str.strip line) = "income"%string ->
   ask_type (line :: rest) = Some ("Income"%string, [], rest))
  /\ (Text.lower (Str.strip line) = "expense"%string ->
      ask_type (line :: rest) = Some ("Expense"%string, [], rest))
  /\ (forall t, ask_type (line :: rest) = Some (t, [], rest) ->
      Text.lower (Str.strip line) = Text.lower t
      /\ (t = "Income"%string \/ t = "Expense"%string)).
Proof.
  split; [|split].
  - intros H. cbn [ask_type]. unfold Str.title.
    now rewrite <- title_from_lower, H.
  - intros H. cbn [ask_type]. unfold Str.title.
    now rewrite <- title_from_lower, H.
  - intros t H. cbn [ask_type] in H.
    destruct (String.eqb (Str.title (Str.strip line)) "Income"
              || String.eqb (Str.title (Str.strip line)) "Expense") eqn:V.
    + injection H as <-. split.
      * unfold Str.title. now rewrite lower_title_from.
      * apply orb_true_iff in V as [V|V]; apply String.eqb_eq in V; auto.
    + destruct (ask_type rest) as [[[t' p'] r']|]; discriminate.
Qed.

Lemma type_entry_ignores_case_witness :
  ask_type ["  iNCOME "; "12"]%string = Some ("Income"%string, [], ["12"%string]).
Proof.
  apply (type_entry_ignores_case "  iNCOME " ["12"%string]). reflexivity.
Defined.

End TypeEntry.

(* ================================================================= *)
(** ** The figure of the dashboard *)

Section Figure.
Import finance_dashboard.
Local Open Scope R_scope.

Lemma insert_key_not_nil {K : Type} (cmp : K -> K -> comparison) (k : K) (ks : list K) :
  insert_key cmp k ks <> [].
Proof. destruct ks as [|k' ks]; cbn [insert_key]; [|destruct (cmp k k')]; discriminate. Qed.

Lemma sorted_unique_empty {K : Type} (cmp : K -> K -> comparison) (ks : list K) :
  sorted_unique cmp ks = [] <-> ks = [].
Proof.
  split; [|intros ->; reflexivity].
  destruct ks as [|k ks]; [reflexivity|].
  cbn [sorted_unique fold_right]. intros H. now apply insert_key_not_nil in H.
Qed.

Lemma report_empty (self : PersonalFinanceDashboard) :
  calculate_monthly_cashflow self = [] <-> csv_file self = [].
Proof.
  rewrite calculate_monthly_cashflow_closed_form. split.
  - intros H. apply map_eq_nil in H. apply sorted_unique_empty in H.
    now apply map_eq_nil in H.
  - intros ->. reflexivity.
Qed.

Lemma goal_bar_bound (current target : R) : goals.progress current target <= 100.
Proof. apply progress_formula. Qed.

(** X20. The figure of the refactored dashboard. The cash flow bars are drawn
    exactly for a non-empty ledger, with one position, one label, one
    income and one expense per month of the report. The allocation is a pie
    with as many labels as sizes when some row has an investment category
    and the "No Investment Data" panel otherwise. The goal panel always has
    the three bars "Portfolio Goal", "Monthly Savings Goal" and "Annual
    Income Goal", none longer than 100, their texts at most at 101. *)
Theorem dashboard_figure_shape (self : PersonalFinanceDashboard) (now : Timestamp) :
  let fig := dashboard_view.display_dashboard self now in
  match visual.ax1 fig with
  | Some bars =>
      csv_file self <> []
      /\ visual.bar_months bars = map fst (calculate_monthly_cashflow self)
      /\ visual.xticks bars = seq 0 (List.length (visual.bar_months bars))
      /\ List.length (visual.bar_income bars) = List.length (visual.bar_months bars)
      /\ List.length (visual.bar_expenses bars) = List.length (visual.bar_months bars)
      /\ List.length (visual.income_x bars) = List.length (visual.bar_months bars)
      /\ List.length (visual.expenses_x bars) = List.length (visual.bar_months bars)
  | None => csv_file self = []
  end
  /\ match visual.ax4 fig with
     | visual.pie labels sizes =>
         List.length labels = List.length sizes
         /\ Exists (fun r => is_investment_category r = true) (csv_file self)
     | visual.no_investment_data =>
         Forall (fun r => is_investment_category r = false) (csv_file self)
     end
  /\ visual.goal_names (visual.ax3 fig)
     = ["Portfolio Goal"; "Monthly Savings Goal"; "Annual Income Goal"]%string
  /\ List.length (visual.goal_progress (visual.ax3 fig)) = 3%nat
  /\ Forall (fun w => w <= 100) (visual.goal_progress (visual.ax3 fig))
  /\ Forall (fun x => x <= 101) (visual.text_x (visual.ax3 fig)).
Proof.
  cbv zeta. unfold dashboard_view.display_dashboard.
  destruct (analytics.calculate_net_worth (read_transactions self) (starting_capital self)
              (get_investment_value self now)) as [nw df'].
  unfold visual.create_visualizations.
  cbn [visual.ax1 visual.ax3 visual.ax4].
  split; [|split].
  - unfold visual.cash_flow_bars.
    destruct (calculate_monthly_cashflow self) as [|kv report] eqn:E.
    + now apply report_empty.
    + cbn [visual.bar_months visual.xticks visual.bar_income visual.bar_expenses
           visual.income_x visual.expenses_x].
      split.
      * intros Hnil. apply report_empty in Hnil. congruence.
      * rewrite !length_map, length_seq. repeat split.
  - unfold visual.allocation, track_investment_portfolio, read_transactions.
    cbn [investment_breakdown rows].
    set (matched := filter is_investment_category (csv_file self)).
    unfold groupby.
    destruct (sorted_unique String.compare (map Category matched)) as [|k keys] eqn:K.
    + cbn [map]. apply sorted_unique_empty in K. apply map_eq_nil in K.
      apply Forall_forall. intros r Hr.
      destruct (is_investment_category r) eqn:M; [|reflexivity].
      assert (Hin : In r matched) by (apply filter_In; now split).
      rewrite K in Hin. destruct Hin.
    + cbn [map]. split; [cbn [List.length]; now rewrite !length_map|].
      assert (Hne : matched <> []).
      { intros Hnil. rewrite Hnil in K. discriminate. }
      destruct matched as [|r l] eqn:Em; [congruence|].
      assert (Hin : In r (filter is_investment_category (csv_file self))).
      { fold matched. rewrite Em. now left. }
      apply filter_In in Hin as [Hr Hm].
      apply Exists_exists. now exists r.
  - unfold visual.goal_bars, goals.track_financial_goals.
    cbn [map fst snd visual.goal_names visual.goal_progress visual.text_x
         progress_percentage List.length].
    split; [reflexivity|]. split; [reflexivity|].
    split.
    + repeat (apply Forall_cons; [apply goal_bar_bound|]). apply Forall_nil.
    + repeat (apply Forall_cons;
              [match goal with |- goals.progress ?c ?t + 1 <= 101 =>
                 pose proof (goal_bar_bound c t); lra end|]).
      apply Forall_nil.
Qed.

End Figure.

(* ================================================================= *)
(** ** Witnesses at the terminal *)

Section SessionWitnesses.
Import transaction_manager.
Local Open Scope R_scope.

Lemma positive_2500 : positive (Finite 2500) = true.
Proof. unfold positive. destruct (Rlt_dec 0 2500) as [_|N]; [reflexivity | lra]. Qed.

Lemma session_outcome :
  add_new_transaction Session.float Session.ledger true "2024-06-30" Session.typed
  = Some (Session.ledger
            ++ [mkCsvRecord "2024-06-30" "Mutual Fund - Index" "Expense" (Finite 2500)],
          [adding_for "2024-06-30"; enter_income_or_expense; enter_a_valid_number;
           amount_must_be_positive; added_successfully],
          ["8"%string]).
Proof.
  apply (@asks_again_outcome Session.float Session.ledger "2024-06-30"
           " Mutual Fund - Index " ["spent"%string] " expense" ["lots"; "nan"]%string
           "2500 " (Finite 2500) ["8"%string]).
  - repeat constructor.
  - reflexivity.
  - repeat constructor.
  - reflexivity.
  - exact positive_2500.
Qed.

Lemma add_new_transaction_appends_valid_record_witness :
  exists consumed, Session.typed = consumed ++ ["8"%string] /\ (3 <= List.length consumed)%nat.
Proof.
  apply (@add_new_transaction_appends_valid_record Session.float Session.ledger true
           "2024-06-30" Session.typed _ _ _ session_outcome).
Defined.

Lemma add_new_transaction_asks_again_witness :
  add_new_transaction Session.float Session.ledger true "2024-06-30" Session.typed
  = Some (Session.ledger
            ++ [mkCsvRecord "2024-06-30" "Mutual Fund - Index" "Expense" (Finite 2500)],
          [adding_for "2024-06-30"; enter_income_or_expense; enter_a_valid_number;
           amount_must_be_positive; added_successfully],
          ["8"%string]).
Proof.
  apply (@add_new_transaction_asks_again Session.float Session.ledger "2024-06-30"
           " Mutual Fund - Index " ["spent"%string] " expense" ["lots"; "nan"]%string
           "2500 " (Finite 2500) ["8"%string]).
  - repeat constructor.
  - reflexivity.
  - repeat constructor.
  - reflexivity.
  - exact positive_2500.
Defined.

End SessionWitnesses.

(* ================================================================= *)
(** ** Whole years *)

Section WholeYears.
Import finance_dashboard.
Local Open Scope R_scope.

Lemma growth_whole_years (k : nat) :
  powerRZ (1 + daily_return_rate) (365 * Z.of_nat k) = (1 + annual_return_rate) ^ k.
Proof.
  induction k as [|k IH]; [reflexivity|].
  replace (365 * Z.of_nat (S k))%Z with (365 * Z.of_nat k + 365)%Z by lia.
  rewrite powerRZ_add by (pose proof daily_factor_pos; lra).
  rewrite IH, growth_day_365. cbn [pow]. lra.
Qed.

(** X21. Daily compounding meets the annual rate: a fund purchase held for [k]
    times 365 days is valued at its amount times 1.12 to the power [k], and
    at exactly its amount on the day it is made. *)
Theorem valuation_at_whole_years (now : Timestamp) (r : Row) (a : R) (k : nat) :
  Amount r = Some a ->
  days_held now r = (365 * Z.of_nat k)%Z ->
  row_current_value now r = Some (a * (1 + 0.12) ^ k)
  /\ (k = 0%nat -> row_current_value now r = Some a).
Proof.
  intros Ha Hd. unfold row_current_value. rewrite Ha, Hd, growth_whole_years.
  split; [reflexivity|]. intros ->. f_equal. cbn [pow]. lra.
Qed.

Lemma valuation_at_whole_years_witness :
  let r := mkRow (Samples.on 2023 6 30) "Mutual Fund - Index" "Expense" (Some 10000) in
  row_current_value (Samples.on 2024 6 29) r = Some (10000 * (1 + 0.12) ^ 1).
Proof.
  intro r.
  apply (@valuation_at_whole_years (Samples.on 2024 6 29) r 10000 1 eq_refl eq_refl).
Defined.

End WholeYears.
